(** * flix.py: credential session and FNAUTH request signing

    A shallow embedding of the signing core of [dialogue_relink/flix.py]
    (class [flix]: [authenticate], [__get_token], [__fn_sign], [reset])
    together with the parts of the Python standard library the class
    calls ([base64], [binascii], [hashlib], [hmac], [json.dumps],
    [datetime]).

    Conventions of the model.
    - A Python [str] is represented by the [string] of its UTF-8 code
      units, so [s.encode('utf-8')] is the identity on representations,
      [+] is [append] and [len(s) == 0] holds exactly for [""].  A Python
      [bytes] object is a [string] of octets as well; the two are told
      apart by the constructor of [pyval] that carries them.
    - [str.upper] is given on ASCII letters, which is what it does on the
      ASCII strings used as HTTP methods; the characters outside ASCII
      are left as they are, which [str.upper] does not do, so that what
      is said of the value of [upper] is said of ASCII text.
    - Machine words are [Z] with the wrap-around written out. *)

From Stdlib Require Import ZArith List String Ascii Bool Lia DecimalString.
Import ListNotations.
Local Open Scope string_scope.
Local Open Scope list_scope.
Local Open Scope Z_scope.

(** ** Octets and text *)

Module Octets.

Definition of_ascii (c : ascii) : Z := Z.of_N (N_of_ascii c).
Definition to_ascii (z : Z) : ascii := ascii_of_N (Z.to_N (z mod 256)).

Fixpoint of_string (s : string) : list Z :=
  match s with
  | EmptyString => []
  | String c r => of_ascii c :: of_string r
  end.

Fixpoint to_string (l : list Z) : string :=
  match l with
  | [] => EmptyString
  | z :: r => String (to_ascii z) (to_string r)
  end.

(** Big-endian and little-endian renderings of a word on [n] octets. *)
Fixpoint le_bytes (n : nat) (w : Z) : list Z :=
  match n with
  | O => []
  | S k => (w mod 256) :: le_bytes k (w / 256)
  end.

Definition be_bytes (n : nat) (w : Z) : list Z := rev (le_bytes n w).

Definition le_word (l : list Z) : Z := fold_right (fun b acc => b + 256 * acc) 0 l.
Definition be_word (l : list Z) : Z := fold_left (fun acc b => 256 * acc + b) l 0.

(** Cut a list into consecutive chunks of [n] elements; [fuel] bounds the
    number of chunks. *)
Fixpoint chunks {A} (fuel : nat) (n : nat) (l : list A) : list (list A) :=
  match fuel, l with
  | O, _ => []
  | _, [] => []
  | S f, _ => firstn n l :: chunks f n (skipn n l)
  end.

Definition blocks {A} (n : nat) (l : list A) : list (list A) :=
  chunks (S (List.length l)) n l.

End Octets.

(** ** binascii.hexlify and hexdigest *)

Module Hex.

Definition digit (z : Z) : ascii :=
  if z <? 10 then Octets.to_ascii (48 + z) else Octets.to_ascii (87 + z).

Fixpoint of_octets (l : list Z) : string :=
  match l with
  | [] => EmptyString
  | b :: r => String (digit (b / 16)) (String (digit (b mod 16)) (of_octets r))
  end.

(** [binascii.hexlify(b)]: two lower-case hex digits per octet. *)
Definition hexlify (b : string) : string := of_octets (Octets.of_string b).

End Hex.

(** ** base64.b64encode (standard alphabet, [=] padding) *)

Module Base64.

Definition alphabet : string :=
  "ABCDEFGHIJKLMNOPQRSTUVWXYZabcdefghijklmnopqrstuvwxyz0123456789+/".

Definition sextet (z : Z) : ascii :=
  match String.get (Z.to_nat z) alphabet with
  | Some c => c
  | None => "="%char
  end.

Fixpoint encode_octets (fuel : nat) (l : list Z) : string :=
  match fuel with
  | O => EmptyString
  | S f =>
    match l with
    | [] => EmptyString
    | [a] =>
        String (sextet (a / 4))
       (String (sextet ((a mod 4) * 16)) "==")
    | [a; b] =>
        String (sextet (a / 4))
       (String (sextet ((a mod 4) * 16 + b / 16))
       (String (sextet ((b mod 16) * 4)) "="))
    | a :: b :: c :: r =>
        String (sextet (a / 4))
       (String (sextet ((a mod 4) * 16 + b / 16))
       (String (sextet ((b mod 16) * 4 + c / 64))
       (String (sextet (c mod 64)) (encode_octets f r))))
    end
  end.

Definition b64encode (b : string) : string :=
  let l := Octets.of_string b in encode_octets (S (List.length l)) l.

End Base64.

(** ** 32-bit words *)

Module Word32.

Definition modulus : Z := 2 ^ 32.
Definition wrap (x : Z) : Z := x mod modulus.
Definition add (x y : Z) : Z := wrap (x + y).
Definition not32 (x : Z) : Z := modulus - 1 - x.
Definition rotl (x n : Z) : Z :=
  Z.lor (wrap (Z.shiftl x n)) (Z.shiftr x (32 - n)).
Definition rotr (x n : Z) : Z :=
  Z.lor (Z.shiftr x n) (wrap (Z.shiftl x (32 - n))).

End Word32.

(** ** hashlib.md5 (RFC 1321) *)

Module MD5.
Import Word32.

Definition T : list Z :=
  [ 0xd76aa478; 0xe8c7b756; 0x242070db; 0xc1bdceee; 0xf57c0faf; 0x4787c62a;
    0xa8304613; 0xfd469501; 0x698098d8; 0x8b44f7af; 0xffff5bb1; 0x895cd7be;
    0x6b901122; 0xfd987193; 0xa679438e; 0x49b40821; 0xf61e2562; 0xc040b340;
    0x265e5a51; 0xe9b6c7aa; 0xd62f105d; 0x02441453; 0xd8a1e681; 0xe7d3fbc8;
    0x21e1cde6; 0xc33707d6; 0xf4d50d87; 0x455a14ed; 0xa9e3e905; 0xfcefa3f8;
    0x676f02d9; 0x8d2a4c8a; 0xfffa3942; 0x8771f681; 0x6d9d6122; 0xfde5380c;
    0xa4beea44; 0x4bdecfa9; 0xf6bb4b60; 0xbebfbc70; 0x289b7ec6; 0xeaa127fa;
    0xd4ef3085; 0x04881d05; 0xd9d4d039; 0xe6db99e5; 0x1fa27cf8; 0xc4ac5665;
    0xf4292244; 0x432aff97; 0xab9423a7; 0xfc93a039; 0x655b59c3; 0x8f0ccc92;
    0xffeff47d; 0x85845dd1; 0x6fa87e4f; 0xfe2ce6e0; 0xa3014314; 0x4e0811a1;
    0xf7537e82; 0xbd3af235; 0x2ad7d2bb; 0xeb86d391 ].

Definition shifts : list Z :=
  [ 7; 12; 17; 22; 7; 12; 17; 22; 7; 12; 17; 22; 7; 12; 17; 22;
    5; 9; 14; 20; 5; 9; 14; 20; 5; 9; 14; 20; 5; 9; 14; 20;
    4; 11; 16; 23; 4; 11; 16; 23; 4; 11; 16; 23; 4; 11; 16; 23;
    6; 10; 15; 21; 6; 10; 15; 21; 6; 10; 15; 21; 6; 10; 15; 21 ].

Definition state : Type := (Z * Z * Z * Z)%type.

Definition init : state := (0x67452301, 0xefcdab89, 0x98badcfe, 0x10325476).

(** Padding: a 1 bit, zeros up to 56 mod 64, the bit length on 64 bits,
    low-order octet first. *)
Definition pad (msg : list Z) : list Z :=
  let n := Z.of_nat (List.length msg) in
  let zeros := Z.to_nat ((55 - n) mod 64) in
  msg ++ [128] ++ repeat 0 zeros ++ Octets.le_bytes 8 (8 * n).

Definition round_fun (i : Z) (b c d : Z) : Z * Z :=
  if i <? 16 then (Z.lor (Z.land b c) (Z.land (not32 b) d), i)
  else if i <? 32 then (Z.lor (Z.land d b) (Z.land (not32 d) c), (5 * i + 1) mod 16)
  else if i <? 48 then (Z.lxor (Z.lxor b c) d, (3 * i + 5) mod 16)
  else (Z.lxor c (Z.lor b (not32 d)), (7 * i) mod 16).

Definition step (M : list Z) (st : state) (i : Z) : state :=
  let '(a, b, c, d) := st in
  let '(f, g) := round_fun i b c d in
  let x := add (add (add f a) (nth (Z.to_nat i) T 0)) (nth (Z.to_nat g) M 0) in
  (d, add b (rotl x (nth (Z.to_nat i) shifts 0)), b, c).

Definition compress (st : state) (block : list Z) : state :=
  let M := map Octets.le_word (Octets.blocks 4 block) in
  let '(a, b, c, d) := fold_left (step M) (map Z.of_nat (seq 0 64)) st in
  let '(a0, b0, c0, d0) := st in
  (add a0 a, add b0 b, add c0 c, add d0 d).

Definition digest_octets (msg : list Z) : list Z :=
  let '(a, b, c, d) := fold_left compress (Octets.blocks 64 (pad msg)) init in
  Octets.le_bytes 4 a ++ Octets.le_bytes 4 b ++ Octets.le_bytes 4 c ++ Octets.le_bytes 4 d.

(** [hashlib.md5(b).hexdigest()] *)
Definition hexdigest (b : string) : string :=
  Hex.of_octets (digest_octets (Octets.of_string b)).

End MD5.

(** ** hashlib.sha256 (FIPS 180-4) and hmac (RFC 2104) *)

Module SHA256.
Import Word32.

Definition primes : list Z :=
  [ 2; 3; 5; 7; 11; 13; 17; 19; 23; 29; 31; 37; 41; 43; 47; 53; 59; 61; 67; 71;
    73; 79; 83; 89; 97; 101; 103; 107; 109; 113; 127; 131; 137; 139; 149; 151;
    157; 163; 167; 173; 179; 181; 191; 193; 197; 199; 211; 223; 227; 229; 233;
    239; 241; 251; 257; 263; 269; 271; 277; 281; 283; 293; 307; 311 ].

(** The largest [r] below [2 ^ bits] above the start value with
    [r ^ 3 <= n], found bit by bit. *)
Fixpoint cube_root (n : Z) (bits : nat) (r : Z) : Z :=
  match bits with
  | O => r
  | S b =>
      let c := r + 2 ^ Z.of_nat b in
      cube_root n b (if c * c * c <=? n then c else r)
  end.

(** The first 32 bits of the fractional part of a cube root and of a
    square root. *)
Definition frac_cbrt (p : Z) : Z := wrap (cube_root (p * 2 ^ 96) 40 0).
Definition frac_sqrt (p : Z) : Z := wrap (Z.sqrt (p * 2 ^ 64)).

(** The round constants: cube roots of the first sixty-four primes. *)
Definition K : list Z := Eval vm_compute in map frac_cbrt primes.

(** The initial hash value: square roots of the first eight primes. *)
Definition init : list Z := Eval vm_compute in map frac_sqrt (firstn 8 primes).

Definition pad (msg : list Z) : list Z :=
  let n := Z.of_nat (List.length msg) in
  let zeros := Z.to_nat ((55 - n) mod 64) in
  msg ++ [128] ++ repeat 0 zeros ++ Octets.be_bytes 8 (8 * n).

Definition ssig0 (x : Z) := Z.lxor (Z.lxor (rotr x 7) (rotr x 18)) (Z.shiftr x 3).
Definition ssig1 (x : Z) := Z.lxor (Z.lxor (rotr x 17) (rotr x 19)) (Z.shiftr x 10).
Definition bsig0 (x : Z) := Z.lxor (Z.lxor (rotr x 2) (rotr x 13)) (rotr x 22).
Definition bsig1 (x : Z) := Z.lxor (Z.lxor (rotr x 6) (rotr x 11)) (rotr x 25).
Definition ch (x y z : Z) := Z.lxor (Z.land x y) (Z.land (not32 x) z).
Definition maj (x y z : Z) :=
  Z.lxor (Z.lxor (Z.land x y) (Z.land x z)) (Z.land y z).

(** The message schedule, most recent word first: [extend n w] adds [n]
    words to the reversed schedule [w]. *)
Fixpoint extend (n : nat) (w : list Z) : list Z :=
  match n with
  | O => w
  | S k =>
      let x := add (add (ssig1 (nth 1 w 0)) (nth 6 w 0))
                   (add (ssig0 (nth 14 w 0)) (nth 15 w 0)) in
      extend k (x :: w)
  end.

Definition schedule (block : list Z) : list Z :=
  rev (extend 48 (rev (map Octets.be_word (Octets.blocks 4 block)))).

Definition round (st : list Z) (kw : Z * Z) : list Z :=
  match st with
  | [a; b; c; d; e; f; g; h] =>
      let t1 := add (add (add h (bsig1 e)) (add (ch e f g) (fst kw))) (snd kw) in
      let t2 := add (bsig0 a) (maj a b c) in
      [add t1 t2; a; b; c; add d t1; e; f; g]
  | _ => st
  end.

Definition compress (st : list Z) (block : list Z) : list Z :=
  let out := fold_left round (combine K (schedule block)) st in
  map (fun p => add (fst p) (snd p)) (combine st out).

Definition digest_octets (msg : list Z) : list Z :=
  flat_map (Octets.be_bytes 4) (fold_left compress (Octets.blocks 64 (pad msg)) init).

Definition digest (b : string) : string :=
  Octets.to_string (digest_octets (Octets.of_string b)).

End SHA256.

Module HMAC.

Definition block_size : nat := 64.

Definition normalise_key (key : list Z) : list Z :=
  let k := if (block_size <? List.length key)%nat then SHA256.digest_octets key else key in
  k ++ repeat 0 (block_size - List.length k).

Definition digest_octets (key msg : list Z) : list Z :=
  let k := normalise_key key in
  let inner := SHA256.digest_octets (map (Z.lxor 0x36) k ++ msg) in
  SHA256.digest_octets (map (Z.lxor 0x5c) k ++ inner).

(** [hmac.new(key, msg, digestmod=hashlib.sha256).digest()] *)
Definition hmac_sha256 (key msg : string) : string :=
  Octets.to_string (digest_octets (Octets.of_string key) (Octets.of_string msg)).

End HMAC.

(** ** datetime

    A naive [datetime] is a point of the proleptic Gregorian calendar with
    microsecond resolution.  It is represented by the number of
    microseconds elapsed since 0001-01-01T00:00:00, the way [datetime.py]
    works with ordinals: comparison is comparison of these numbers and
    adding a [timedelta] is addition, within the range the type covers. *)

Module Datetime.

Definition datetime : Type := Z.
Definition timedelta : Type := Z.

Definition usec_per_sec : Z := 1000000.
Definition usec_per_day : Z := 86400 * usec_per_sec.

(** [timedelta(hours=h)] *)
Definition hours (h : Z) : timedelta := h * 3600 * usec_per_sec.
Definition seconds (s : Z) : timedelta := s * usec_per_sec.

Definition is_leap (y : Z) : bool :=
  (y mod 4 =? 0) && (negb (y mod 100 =? 0) || (y mod 400 =? 0)).

Definition DAYS_IN_MONTH : list Z := [0; 31; 28; 31; 30; 31; 30; 31; 31; 30; 31; 30; 31].
Definition DAYS_BEFORE_MONTH : list Z :=
  [0; 0; 31; 59; 90; 120; 151; 181; 212; 243; 273; 304; 334].

Definition days_in_month (y m : Z) : Z :=
  if (m =? 2) && is_leap y then 29 else nth (Z.to_nat m) DAYS_IN_MONTH 0.

Definition days_before_year (y : Z) : Z :=
  let p := y - 1 in p * 365 + p / 4 - p / 100 + p / 400.

Definition days_before_month (y m : Z) : Z :=
  nth (Z.to_nat m) DAYS_BEFORE_MONTH 0 + (if (2 <? m) && is_leap y then 1 else 0).

Definition ymd2ord (y m d : Z) : Z :=
  days_before_year y + days_before_month y m + d.

(** [_ord2ymd] of [datetime.py]. *)
Definition ord2ymd (ordinal : Z) : Z * Z * Z :=
  let n := ordinal - 1 in
  let n400 := n / 146097 in let n := n mod 146097 in
  let n100 := n / 36524 in let n := n mod 36524 in
  let n4 := n / 1461 in let n := n mod 1461 in
  let n1 := n / 365 in let n := n mod 365 in
  let year := n400 * 400 + 1 + n100 * 100 + n4 * 4 + n1 in
  if (n1 =? 4) || (n100 =? 4) then (year - 1, 12, 31)
  else
    let leapyear := (n1 =? 3) && (negb (n4 =? 24) || (n100 =? 3)) in
    let month := Z.shiftr (n + 50) 5 in
    let preceding :=
      nth (Z.to_nat month) DAYS_BEFORE_MONTH 0
      + (if (2 <? month) && leapyear then 1 else 0) in
    if n <? preceding then
      let month := month - 1 in
      let preceding :=
        preceding - (nth (Z.to_nat month) DAYS_IN_MONTH 0
                     + (if (month =? 2) && leapyear then 1 else 0)) in
      (year, month, n - preceding + 1)
    else (year, month, n - preceding + 1).

Definition MAXORDINAL : Z := 3652059.

(** The last representable instant, 9999-12-31T23:59:59.999999. *)
Definition max : datetime := MAXORDINAL * usec_per_day - 1.

Definition in_range (t : Z) : bool := (0 <=? t) && (t <=? max).

(** The constructor [datetime(y, m, d, H, M, S, us)]; [None] stands for
    the [ValueError] it raises on a field out of range. *)
Definition make (y m d H M S us : Z) : option datetime :=
  if (1 <=? y) && (y <=? 9999) && (1 <=? m) && (m <=? 12)
     && (1 <=? d) && (d <=? days_in_month y m)
     && (0 <=? H) && (H <=? 23) && (0 <=? M) && (M <=? 59)
     && (0 <=? S) && (S <=? 59) && (0 <=? us) && (us <? usec_per_sec)
  then Some (((ymd2ord y m d - 1) * 86400 + H * 3600 + M * 60 + S) * usec_per_sec + us)
  else None.

(** [t + delta]; [None] stands for [OverflowError]. *)
Definition add (t : datetime) (delta : timedelta) : option datetime :=
  if in_range (t + delta) then Some (t + delta) else None.

(** [a > b] *)
Definition gt (a b : datetime) : bool := b <? a.

Definition digit_char (z : Z) : ascii := Octets.to_ascii (48 + z).

(** ["%0<n>d"] for a non-negative number. *)
Fixpoint zero_padded (n : nat) (z : Z) : string :=
  match n with
  | O => if z =? 0 then EmptyString else NilZero.string_of_int (Z.to_int z)
  | S O => if z <? 10 then String (digit_char z) EmptyString
           else NilZero.string_of_int (Z.to_int z)
  | S k => if z <? 10 ^ Z.of_nat k then String "0"%char (zero_padded k z)
           else NilZero.string_of_int (Z.to_int z)
  end.

(** [t.isoformat()] of a naive datetime: the fraction appears only when
    the microsecond field is not zero. *)
Definition isoformat (t : datetime) : string :=
  let us := t mod usec_per_sec in
  let secs := t / usec_per_sec in
  let sod := secs mod 86400 in
  let '(y, m, d) := ord2ymd (secs / 86400 + 1) in
  (zero_padded 4 y ++ "-" ++ zero_padded 2 m ++ "-" ++ zero_padded 2 d ++ "T"
   ++ zero_padded 2 (sod / 3600) ++ ":" ++ zero_padded 2 ((sod / 60) mod 60)
   ++ ":" ++ zero_padded 2 (sod mod 60)
   ++ (if (us =? 0)%Z then "" else "." ++ zero_padded 6 us))%string.

(** *** [datetime.strptime(s, '%Y-%m-%dT%H:%M:%S')]

    [_strptime] turns the format into the regular expression
    [(\d\d\d\d)-(1[0-2]|0[1-9]|[1-9])-(3[0-1]|[1-2]\d|0[1-9]|[1-9]| [1-9])T
     (2[0-3]|[0-1]\d|\d):([0-5]\d|\d):(6[0-1]|[0-5]\d|\d)],
    compiled ignoring case, matches it at the start of the string and
    rejects unconverted trailing data.  Every field is followed by a
    literal that is not a digit (or by the end), so trying the
    alternatives of a field in order and keeping the first that matches
    is what the regular expression engine ends up doing. *)

Definition parser (A : Type) : Type := string -> option (A * string).

Definition between (lo hi : Z) (c : ascii) : bool :=
  let v := Octets.of_ascii c - 48 in (lo <=? v) && (v <=? hi).

Definition value (c : ascii) : Z := Octets.of_ascii c - 48.

Definition one (lo hi : Z) : parser Z := fun s =>
  match s with
  | String a r => if between lo hi a then Some (value a, r) else None
  | _ => None
  end.

Definition two (lo1 hi1 lo2 hi2 : Z) : parser Z := fun s =>
  match s with
  | String a (String b r) =>
      if between lo1 hi1 a && between lo2 hi2 b
      then Some (10 * value a + value b, r) else None
  | _ => None
  end.

Definition orelse {A} (p q : parser A) : parser A := fun s =>
  match p s with
  | Some x => Some x
  | None => q s
  end.

Definition lit (c : ascii) : parser unit := fun s =>
  match s with
  | String a r => if Ascii.eqb a c then Some (tt, r) else None
  | _ => None
  end.

Definition re_Y : parser Z := fun s =>
  match two 0 9 0 9 s with
  | Some (hi, r) =>
      match two 0 9 0 9 r with
      | Some (lo, r') => Some (100 * hi + lo, r')
      | None => None
      end
  | None => None
  end.

Definition re_m : parser Z := orelse (two 1 1 0 2) (orelse (two 0 0 1 9) (one 1 9)).

Definition re_d : parser Z :=
  orelse (two 3 3 0 1) (orelse (two 1 2 0 9) (orelse (two 0 0 1 9) (orelse (one 1 9)
    (fun s => match lit " " s with Some (_, r) => one 1 9 r | None => None end)))).

Definition re_H : parser Z := orelse (two 2 2 0 3) (orelse (two 0 1 0 9) (one 0 9)).
Definition re_M : parser Z := orelse (two 0 5 0 9) (one 0 9).
Definition re_S : parser Z := orelse (two 6 6 0 1) (orelse (two 0 5 0 9) (one 0 9)).

Definition strptime (s : string) : option datetime :=
  match re_Y s with None => None | Some (y, s) =>
  match lit "-" s with None => None | Some (_, s) =>
  match re_m s with None => None | Some (m, s) =>
  match lit "-" s with None => None | Some (_, s) =>
  match re_d s with None => None | Some (d, s) =>
  match orelse (lit "T") (lit "t") s with None => None | Some (_, s) =>
  match re_H s with None => None | Some (h, s) =>
  match lit ":" s with None => None | Some (_, s) =>
  match re_M s with None => None | Some (mi, s) =>
  match lit ":" s with None => None | Some (_, s) =>
  match re_S s with None => None | Some (sec, s) =>
  match s with
  | EmptyString => make y m d h mi sec 0
  | _ => None
  end end end end end end end end end end end end.

End Datetime.

(** ** Python values *)

Local Open Scope string_scope.
Set Warnings "-register-all".

Definition LF : string := String "010"%char EmptyString.
Definition DQUOTE : string := String "034"%char EmptyString.

Module Py.

(** The values the class handles: request contents, the decoded JSON of
    a response, and the attributes of the [flix] object.  A [dict] keeps
    its insertion order and has [str] keys, pairwise distinct.  Floats
    are left out. *)
Inductive pyval : Type :=
| PNone
| PBool (b : bool)
| PInt (n : Z)
| PStr (s : string)
| PBytes (b : string)
| PList (items : list pyval)
| PDict (entries : list (string * pyval)).

Inductive exn : Type :=
| TypeError
| ValueError
| KeyError
| AttributeError
| OverflowError.

(** What evaluating an expression comes to: a value or a raised
    exception. *)
Inductive outcome (A : Type) : Type :=
| Return (a : A)
| Raise (e : exn).
Arguments Return {A} a.
Arguments Raise {A} e.

Definition obind {A B} (x : outcome A) (k : A -> outcome B) : outcome B :=
  match x with
  | Return a => k a
  | Raise e => Raise e
  end.

(** [v is None] *)
Definition is_none (v : pyval) : bool :=
  match v with
  | PNone => true
  | _ => false
  end.

(** Truth value of an object, as tested by [if v:]. *)
Definition truthy (v : pyval) : bool :=
  match v with
  | PNone => false
  | PBool b => b
  | PInt n => negb (n =? 0)%Z
  | PStr s => negb (s =? "")
  | PBytes b => negb (b =? "")
  | PList l => match l with [] => false | _ => true end
  | PDict d => match d with [] => false | _ => true end
  end.

(** [a + b] where one of the operands is a [str]: concatenation of two
    strings, [TypeError] for any other operand. *)
Definition str_add (a b : pyval) : outcome string :=
  match a, b with
  | PStr x, PStr y => Return (x ++ y)
  | _, _ => Raise TypeError
  end.

Fixpoint lookup (k : string) (d : list (string * pyval)) : option pyval :=
  match d with
  | [] => None
  | (k', v) :: r => if k' =? k then Some v else lookup k r
  end.

(** [v[k]] for a string [k]. *)
Definition getitem (v : pyval) (k : string) : outcome pyval :=
  match v with
  | PDict d =>
      match lookup k d with
      | Some x => Return x
      | None => Raise KeyError
      end
  | _ => Raise TypeError
  end.

(** The text before the first occurrence of [c]: [s.split(c)[0]]. *)
Fixpoint before (c : ascii) (s : string) : string :=
  match s with
  | EmptyString => EmptyString
  | String a r => if Ascii.eqb a c then EmptyString else String a (before c r)
  end.

(** [v.split('.')[0]] *)
Definition split_dot_head (v : pyval) : outcome string :=
  match v with
  | PStr s => Return (before "." s)
  | PBytes _ => Raise TypeError
  | _ => Raise AttributeError
  end.

Definition upper_ascii (c : ascii) : ascii :=
  let n := Octets.of_ascii c in
  if (97 <=? n)%Z && (n <=? 122)%Z then Octets.to_ascii (n - 32) else c.

(** [s.upper()] on ASCII text. *)
Fixpoint upper (s : string) : string :=
  match s with
  | EmptyString => EmptyString
  | String a r => String (upper_ascii a) (upper r)
  end.

(** [s.encode('utf-8')] and [b.decode('utf-8')] on representations. *)
Definition encode_utf8 (s : string) : string := s.
Definition decode_utf8 (b : string) : string := b.

(** [str(n)] *)
Definition str_of_int (n : Z) : string := NilZero.string_of_int (Z.to_int n).

End Py.

(** ** json.dumps with its default arguments *)

Module Json.
Import Py.
Local Open Scope Z_scope.

(** The code points a UTF-8 text stands for. *)
Fixpoint code_points (l : list Z) : list Z :=
  match l with
  | [] => []
  | a :: r =>
      if a <? 0x80 then a :: code_points r
      else if a <? 0xE0 then
        match r with
        | b :: r1 => ((a mod 32) * 64 + b mod 64) :: code_points r1
        | _ => [a]
        end
      else if a <? 0xF0 then
        match r with
        | b :: c :: r2 =>
            ((a mod 16) * 4096 + (b mod 64) * 64 + c mod 64) :: code_points r2
        | _ => [a]
        end
      else
        match r with
        | b :: c :: d :: r3 =>
            ((a mod 8) * 262144 + (b mod 64) * 4096 + (c mod 64) * 64 + d mod 64)
              :: code_points r3
        | _ => [a]
        end
  end.

Definition u_escape (n : Z) : string :=
  ("\u" ++ Hex.of_octets [n / 256; n mod 256])%string.

(** [py_encode_basestring_ascii]: what is not printable ASCII is
    escaped, astral code points as a surrogate pair. *)
Definition escape (cp : Z) : string :=
  if cp =? 0x22 then String "\" DQUOTE
  else if cp =? 0x5c then "\\"
  else if cp =? 0x0a then "\n"
  else if cp =? 0x0d then "\r"
  else if cp =? 0x09 then "\t"
  else if cp =? 0x08 then "\b"
  else if cp =? 0x0c then "\f"
  else if (0x20 <=? cp) && (cp <=? 0x7e) then String (Octets.to_ascii cp) EmptyString
  else if cp <? 0x10000 then u_escape cp
  else
    let n := cp - 0x10000 in
    (u_escape (0xd800 + (n / 1024) mod 1024) ++ u_escape (0xdc00 + n mod 1024))%string.

Definition quote (s : string) : string :=
  (DQUOTE ++ String.concat EmptyString (map escape (code_points (Octets.of_string s)))
   ++ DQUOTE)%string.

(** [json.dumps(v)]; [bytes] anywhere in the value is a [TypeError]. *)
Fixpoint dumps (v : pyval) : outcome string :=
  match v with
  | PNone => Return "null"%string
  | PBool true => Return "true"%string
  | PBool false => Return "false"%string
  | PInt n => Return (str_of_int n)
  | PStr s => Return (quote s)
  | PBytes _ => Raise TypeError
  | PList l =>
      obind
        ((fix items (l : list pyval) : outcome (list string) :=
            match l with
            | [] => Return []
            | x :: r =>
                obind (dumps x) (fun a => obind (items r) (fun b => Return (a :: b)))
            end) l)
        (fun parts => Return ("[" ++ String.concat ", " parts ++ "]")%string)
  | PDict d =>
      obind
        ((fix entries (d : list (string * pyval)) : outcome (list string) :=
            match d with
            | [] => Return []
            | (k, x) :: r =>
                obind (dumps x) (fun a =>
                obind (entries r) (fun b => Return ((quote k ++ ": " ++ a)%string :: b)))
            end) d)
        (fun parts => Return ("{" ++ String.concat ", " parts ++ "}")%string)
  end.

End Json.

(** ** The class [flix] *)

Module Flix.
Import Py.

(** *** [__fn_sign] *)

(** Lines 118-127: the fingerprint of the content, [''] when there is
    none.  [hashlib.md5] takes bytes-like objects only and raises
    [TypeError] when handed a [str]. *)
Definition content_md5 (content : pyval) : outcome string :=
  if truthy content then
    match content with
    | PStr _ => Raise TypeError
    | PBytes b =>
        let hx := Hex.hexlify b in
        Return (MD5.hexdigest hx)
    | PDict _ =>
        obind (Json.dumps content) (fun jsoned =>
        Return (MD5.hexdigest (encode_utf8 jsoned)))
    | _ => Return ""
    end
  else Return "".

(** Lines 117-136: the canonical string [raw_string]. *)
Definition raw_string (url : string) (content : pyval)
           (http_method content_type : string) (dt : Datetime.datetime)
  : outcome string :=
  let raw := upper http_method ++ LF in
  obind (content_md5 content) (fun md5 =>
  let raw :=
    if negb (md5 =? "") then
      let raw := raw ++ (md5 ++ LF) in
      raw ++ (content_type ++ LF)
    else raw ++ (LF ++ LF) in
  let raw := raw ++ ((before "." (Datetime.isoformat dt) ++ "Z") ++ LF) in
  let url_without_query_params := before "?" url in
  Return (raw ++ url_without_query_params)).

Definition fn_sign (access_key_id secret_access_key url : string)
           (content : pyval) (http_method content_type : string)
           (dt : Datetime.datetime) : outcome string :=
  obind (raw_string url content http_method content_type dt) (fun raw =>
  if (String.length secret_access_key =? 0)%nat then Raise ValueError
  else
    let digest_created :=
      Base64.b64encode
        (HMAC.hmac_sha256 (encode_utf8 secret_access_key) (encode_utf8 raw)) in
    Return ("FNAUTH " ++ access_key_id ++ ":" ++ decode_utf8 digest_created)).

(** *** The object and its environment *)

Record flix : Type := {
  hostname : pyval;
  login : pyval;
  password : pyval;
  key : pyval;
  secret : pyval;
  expiry : option Datetime.datetime
}.

(** What [requests.post] comes to: a [RequestException] (raised by the
    transport, or by [raise_for_status] on a 4xx or 5xx status) with its
    text, or a response, of any status [raise_for_status] lets through,
    whose body [json.loads] decodes to a value, [None] when the body is
    not JSON. *)
Inductive reply : Type :=
| RequestException (err : string)
| Body (decoded : option pyval).

Definition headers : Type := list (string * string).
Definition network : Type := string -> headers -> reply.

(** What a method does that is seen from outside the object.  The entry
    into [authenticate] is recorded so that a refresh can be told from
    its absence. *)
Inductive event : Type :=
| Called_authenticate (hostname login password : pyval)
| Posted (url : string) (hdr : headers)
| Printed (text : string).

(** A method: from the object to the object it leaves, the events it
    caused and the value it returns or the exception it raises.  The
    assignments made before an exception stay. *)
Definition M (A : Type) : Type := flix -> flix * list event * outcome A.

Definition ret {A} (a : A) : M A := fun st => (st, [], Return a).
Definition raise {A} (e : exn) : M A := fun st => (st, [], Raise e).
Definition lift {A} (x : outcome A) : M A := fun st => (st, [], x).
Definition emit (e : event) : M unit := fun st => (st, [e], Return tt).
Definition get : M flix := fun st => (st, [], Return st).
Definition modify (f : flix -> flix) : M unit := fun st => (f st, [], Return tt).

Definition bind {A B} (m : M A) (k : A -> M B) : M B := fun st =>
  match m st with
  | (st1, ev1, Return a) =>
      match k a st1 with
      | (st2, ev2, r) => (st2, (ev1 ++ ev2)%list, r)
      end
  | (st1, ev1, Raise e) => (st1, ev1, Raise e)
  end.

Notation "x <- m ;; k" := (bind m (fun x => k))
  (at level 61, m at next level, right associativity).
Notation "m ;;; k" := (bind m (fun _ => k))
  (at level 61, right associativity).

Definition state_of {A} (r : flix * list event * outcome A) : flix := fst (fst r).
Definition events_of {A} (r : flix * list event * outcome A) : list event := snd (fst r).
Definition result_of {A} (r : flix * list event * outcome A) : outcome A := snd r.

Definition set_identity (h l p : pyval) (st : flix) : flix :=
  {| hostname := h; login := l; password := p;
     key := key st; secret := secret st; expiry := expiry st |}.
Definition set_key (v : pyval) (st : flix) : flix :=
  {| hostname := hostname st; login := login st; password := password st;
     key := v; secret := secret st; expiry := expiry st |}.
Definition set_secret (v : pyval) (st : flix) : flix :=
  {| hostname := hostname st; login := login st; password := password st;
     key := key st; secret := v; expiry := expiry st |}.
Definition set_expiry (t : Datetime.datetime) (st : flix) : flix :=
  {| hostname := hostname st; login := login st; password := password st;
     key := key st; secret := secret st; expiry := Some t |}.

(** [datetime.strptime(s, '%Y-%m-%dT%H:%M:%S')] *)
Definition strptime (s : string) : outcome Datetime.datetime :=
  match Datetime.strptime s with
  | Some t => Return t
  | None => Raise ValueError
  end.

Definition auth_headers (authdata : string) : headers :=
  [("Content-Type", "application/json");
   ("Authorization", "Basic " ++ decode_utf8 authdata)].

(** *** [authenticate] *)
Definition authenticate (net : network) (hostname login password : pyval)
  : M pyval :=
  emit (Called_authenticate hostname login password) ;;;
  lc <- lift (str_add login (PStr ":")) ;;
  cred <- lift (str_add (PStr lc) password) ;;
  let authdata := Base64.b64encode (encode_utf8 cred) in
  let header := auth_headers authdata in
  url <- lift (str_add hostname (PStr "/authenticate")) ;;
  emit (Posted url header) ;;;
  match net url header with
  | RequestException err =>
      emit (Printed ("Authentification failed " ++ err ++ LF)) ;;;
      ret PNone
  | Body None => raise ValueError
  | Body (Some response) =>
      modify (set_identity hostname login password) ;;;
      id <- lift (getitem response "id") ;;
      modify (set_key id) ;;;
      sk <- lift (getitem response "secret_access_key") ;;
      modify (set_secret sk) ;;;
      ed <- lift (getitem response "expiry_date") ;;
      d <- lift (split_dot_head ed) ;;
      t <- lift (strptime d) ;;
      modify (set_expiry t) ;;;
      ret response
  end.

(** The condition of line 72-73, evaluated left to right; the clock is
    read and advanced by two hours only when the three attributes are
    set. *)
Definition refresh_needed (now : Datetime.datetime) (st : flix) : outcome bool :=
  if is_none (key st) then Return true
  else if is_none (secret st) then Return true
  else
    match expiry st with
    | None => Return true
    | Some e =>
        match Datetime.add now (Datetime.hours 2) with
        | Some t => Return (Datetime.gt t e)
        | None => Raise OverflowError
        end
    end.

(** *** [__get_token]; [now] is what [datetime.now()] reads. *)
Definition get_token (net : network) (now : Datetime.datetime)
  : M (pyval * pyval) :=
  st <- get ;;
  refresh <- lift (refresh_needed now st) ;;
  (if refresh : bool then
     authentificationToken <-
       authenticate net (hostname st) (login st) (password st) ;;
     auth_id <- lift (getitem authentificationToken "id") ;;
     auth_secret_token <- lift (getitem authentificationToken "secret_access_key") ;;
     auth_expiry_date <- lift (getitem authentificationToken "expiry_date") ;;
     auth_expiry_date <- lift (split_dot_head auth_expiry_date) ;;
     modify (set_key auth_id) ;;;
     modify (set_secret auth_secret_token) ;;;
     t <- lift (strptime auth_expiry_date) ;;
     modify (set_expiry t)
   else ret tt) ;;;
  st <- get ;;
  ret (key st, secret st).

(** *** [reset] *)
Definition reset : M unit :=
  modify (fun _ =>
    {| hostname := PNone; login := PNone; password := PNone;
       key := PNone; secret := PNone; expiry := None |}).

(** The object [flix()] builds: [__init__] calls [reset]. *)
Definition init : flix :=
  {| hostname := PNone; login := PNone; password := PNone;
     key := PNone; secret := PNone; expiry := None |}.

(** *** Sequences of calls *)

Inductive op : Type :=
| Authenticate (net : network) (hostname login password : pyval)
| GetToken (net : network) (now : Datetime.datetime)
| Reset.

(** The object after a call, whether the call returned or raised. *)
Definition exec (st : flix) (o : op) : flix :=
  match o with
  | Authenticate net h l p => state_of (authenticate net h l p st)
  | GetToken net now => state_of (get_token net now st)
  | Reset => state_of (reset st)
  end.

Definition run (ops : list op) : flix := fold_left exec ops init.

(** The token attributes are set together or absent together. *)
Definition token_unit (st : flix) : bool :=
  match expiry st with
  | None => is_none (key st) && is_none (secret st)
  | Some _ => negb (is_none (key st)) && negb (is_none (secret st))
  end.

(** A response that carries a token: an object whose [id] and
    [secret_access_key] are not null and whose [expiry_date] is a string
    that parses once its fraction is dropped. *)
Definition token_ok (v : pyval) : bool :=
  match v with
  | PDict d =>
      match lookup "id" d, lookup "secret_access_key" d, lookup "expiry_date" d with
      | Some i, Some s, Some (PStr e) =>
          negb (is_none i) && negb (is_none s)
          && match Datetime.strptime (before "." e) with Some _ => true | None => false end
      | _, _, _ => false
      end
  | _ => false
  end.

(** A network whose successful responses all carry a token. *)
Definition serves_tokens (net : network) : Prop :=
  forall url hdr v, net url hdr = Body (Some v) -> token_ok v = true.

Definition op_ok (o : op) : Prop :=
  match o with
  | Authenticate net _ _ _ => serves_tokens net
  | GetToken net _ => serves_tokens net
  | Reset => True
  end.

(** The request [authenticate] sends when its arguments are strings. *)
Definition auth_url (hostname : string) : string := hostname ++ "/authenticate".
Definition basic_auth (login password : string) : headers :=
  auth_headers (Base64.b64encode (encode_utf8 ((login ++ ":") ++ password))).

Definition is_call (e : event) : bool :=
  match e with
  | Called_authenticate _ _ _ => true
  | _ => false
  end.

(** A run of a method refreshed the token when it entered
    [authenticate]. *)
Definition refreshed {A} (r : flix * list event * outcome A) : bool :=
  existsb is_call (events_of r).

End Flix.

(** ** Fixtures used by the scenarios below *)

Module Scenario.
Import Py Flix.

Definition revision_url : string := "/show/1/sequence/2/revision/1".

(** 2024-01-01T00:00:00 *)
Definition new_year : option Datetime.datetime := Datetime.make 2024 1 1 0 0 0 0.

(** 2024-01-01T10:00:00 *)
Definition ten_o_clock : option Datetime.datetime := Datetime.make 2024 1 1 10 0 0 0.

Definition token (expiry_date : string) : pyval :=
  PDict [("id", PStr "K1"); ("secret_access_key", PStr "S3cr3t");
         ("expiry_date", PStr expiry_date)].

(** A response whose [id] is JSON [null]. *)
Definition token_without_id : pyval :=
  PDict [("id", PNone); ("secret_access_key", PStr "S3cr3t");
         ("expiry_date", PStr "2024-01-01T10:00:00.5")].

(** A server that answers every request with the same token. *)
Definition serving (v : pyval) : network := fun _ _ => Body (Some v).

(** A network on which every request fails. *)
Definition failing (err : string) : network := fun _ _ => RequestException err.

Definition unserialisable : pyval := PDict [("k", PBytes "x")].

Definition host : pyval := PStr "https://flix.example".
Definition user : pyval := PStr "artist".
Definition pass : pyval := PStr "pa55word".

(** An object that holds a token expiring at [e]. *)
Definition session (e : Datetime.datetime) : flix :=
  {| hostname := host; login := user; password := pass;
     key := PStr "K1"; secret := PStr "S3cr3t"; expiry := Some e |}.

(** 2024-01-01T10:00:00 as a number of microseconds. *)
Definition expiry_instant : Datetime.datetime := 63839700000000000.

End Scenario.

(** ** The date header *)

Module Calendar.

Definition DAY_NAMES : list string := ["Mon"; "Tue"; "Wed"; "Thu"; "Fri"; "Sat"; "Sun"].
Definition MONTH_NAMES : list string :=
  [""; "Jan"; "Feb"; "Mar"; "Apr"; "May"; "Jun"; "Jul"; "Aug"; "Sep"; "Oct"; "Nov"; "Dec"].

(** [t.weekday()]: Monday is 0, and 0001-01-01, of ordinal 1, is a
    Monday. *)
Definition weekday (t : Datetime.datetime) : Z :=
  ((t / Datetime.usec_per_day + 1 + 6) mod 7)%Z.

(** [t.strftime('%a, %d %b %Y %H:%M:%S GMT')] with the names of the C
    locale, the year as the C library prints it, without padding. *)
Definition http_date (t : Datetime.datetime) : string :=
  let secs := (t / Datetime.usec_per_sec)%Z in
  let sod := (secs mod 86400)%Z in
  let '(y, m, d) := Datetime.ord2ymd (secs / 86400 + 1) in
  nth (Z.to_nat (weekday t)) DAY_NAMES "" ++ ", "
  ++ Datetime.zero_padded 2 d ++ " " ++ nth (Z.to_nat m) MONTH_NAMES "" ++ " "
  ++ Py.str_of_int y ++ " "
  ++ Datetime.zero_padded 2 (sod / 3600) ++ ":"
  ++ Datetime.zero_padded 2 ((sod / 60) mod 60) ++ ":"
  ++ Datetime.zero_padded 2 (sod mod 60) ++ " GMT".

End Calendar.

(** ** The methods built on the signing core *)

Module Client.
Import Py Flix.

(** *** [__fn_sign] on the values [__get_token] hands over

    [__get_headers] passes the key and the secret as they are stored,
    whatever their type. *)

(** [len(v) == 0] *)
Definition len_is_zero (v : pyval) : outcome bool :=
  match v with
  | PStr s => Return (s =? "")
  | PBytes b => Return (b =? "")
  | PList l => Return (match l with [] => true | _ => false end)
  | PDict d => Return (match d with [] => true | _ => false end)
  | _ => Raise TypeError
  end.

(** [v.encode('utf-8')] *)
Definition encode (v : pyval) : outcome string :=
  match v with
  | PStr s => Return (encode_utf8 s)
  | _ => Raise AttributeError
  end.

Definition fn_sign_py (access_key_id secret_access_key : pyval) (url : string)
           (content : pyval) (http_method content_type : string)
           (dt : Datetime.datetime) : outcome string :=
  obind (raw_string url content http_method content_type dt) (fun raw =>
  obind (len_is_zero secret_access_key) (fun empty =>
  if empty : bool then Raise ValueError
  else
    obind (encode secret_access_key) (fun k =>
    let digest_created := Base64.b64encode (HMAC.hmac_sha256 k (encode_utf8 raw)) in
    obind (str_add (PStr "FNAUTH ") access_key_id) (fun prefix =>
    Return (prefix ++ ":" ++ decode_utf8 digest_created))))).

(** *** [__get_headers]; [utcnow] is what [datetime.utcnow()] reads and
    [now] what [datetime.now()] reads inside [__get_token]. *)
Definition get_headers (net : network) (now utcnow : Datetime.datetime)
           (content : pyval) (url method : string) : M headers :=
  let dt := utcnow in
  ks <- get_token net now ;;
  authorization <-
    lift (fn_sign_py (fst ks) (snd ks) url content method "application/json" dt) ;;
  ret [("Authorization", authorization);
       ("Content-Type", "application/json");
       ("Date", Calendar.http_date dt)].

(** *** The world around the retrieval methods *)

(** What raises out of a method: an exception of the core,
    [UnboundLocalError], or the [URLError] of [urllib]. *)
Inductive raised : Type :=
| Exn (e : exn)
| UnboundLocalError
| URLError (reason : string).

Inductive io : Type :=
| Core (e : event)
| Got (url : string) (hdr : headers)
| Urlopened (url : string) (hdr : headers) (data : string).

(** What [requests.get] and [urllib.request.urlopen] come to: a failure
    of the transport with its text, or a response with its status and
    the value [json.loads] decodes its body to, [None] when the body is
    not JSON. *)
Inductive response : Type :=
| Failed (err : string)
| Answered (status_code : Z) (decoded : option pyval).

(** [auth_net] answers the POST of [authenticate].  [get_net] is
    [requests.get], which raises [RequestException] on [Failed] and
    returns the response of any status otherwise, the methods never
    calling [raise_for_status].  [open_net] is [urllib.request.urlopen]
    followed by [read], which raises [URLError] on [Failed].
    [urlencode] is [urllib.parse.urlencode]. *)
Record env : Type := {
  auth_net : network;
  get_net : string -> headers -> response;
  open_net : string -> headers -> string -> response;
  clock_now : Datetime.datetime;
  clock_utcnow : Datetime.datetime;
  urlencode : pyval -> outcome string
}.

Definition ending : Type := (flix * list io * (pyval + raised))%type.

Definition object_of (r : ending) : flix := fst (fst r).
Definition io_of (r : ending) : list io := snd (fst r).
Definition value_of (r : ending) : pyval + raised := snd r.

(** [v.get(k)] *)
Definition dict_get (v : pyval) (k : string) : outcome pyval :=
  match v with
  | PDict d =>
      match lookup k d with
      | Some x => Return x
      | None => Return PNone
      end
  | _ => Raise AttributeError
  end.

(** The two shapes of a url, with and without an episode. *)
Definition show_url (show_id : Z) (episode_id : option Z) (seq_id : Z)
           (tail : string) : string :=
  match episode_id with
  | None =>
      "/show/" ++ str_of_int show_id ++ "/sequence/" ++ str_of_int seq_id ++ tail
  | Some ep =>
      "/show/" ++ str_of_int show_id ++ "/episode/" ++ str_of_int ep
      ++ "/sequence/" ++ str_of_int seq_id ++ tail
  end.

(** The handler of [RequestException] in the retrieval methods; [r] is
    the local variable of that name, [None] while nothing is bound to
    it.  Reading an unbound local raises [UnboundLocalError]. *)
Definition handler (r : option (Z * option pyval)) (err : string)
  : list io * (pyval + raised) :=
  match r with
  | None => ([], inr UnboundLocalError)
  | Some (status_code, _) =>
      if (status_code =? 401)%Z
      then ([Core (Printed ("Your token has been revoked" ++ LF))], inl PNone)
      else ([Core (Printed ("Could not retrieve sequence revisions " ++ err ++ LF))],
            inl PNone)
  end.

(** The body the four retrieval methods share: sign a GET of [url] that
    carries no content, then, inside the [try], send it to
    [self.hostname + url], decode the body and, for the methods that
    extract one, take the field.  Only [requests.get] can raise a
    [RequestException] there, and it does so before [r] is bound. *)
Definition fetch (e : env) (url : string) (field : option string) (st : flix)
  : ending :=
  match get_headers (auth_net e) (clock_now e) (clock_utcnow e) PNone url "GET" st with
  | (st1, ev, Raise x) => (st1, map Core ev, inr (Exn x))
  | (st1, ev, Return hdr) =>
      let r : option (Z * option pyval) := None in
      match str_add (hostname st1) (PStr url) with
      | Raise x => (st1, map Core ev, inr (Exn x))
      | Return target =>
          let ev := (map Core ev ++ [Got target hdr])%list in
          match get_net e target hdr with
          | Failed err =>
              let '(printed, v) := handler r err in (st1, (ev ++ printed)%list, v)
          | Answered status_code None => (st1, ev, inr (Exn ValueError))
          | Answered status_code (Some decoded) =>
              match field with
              | None => (st1, ev, inl decoded)
              | Some f =>
                  match dict_get decoded f with
                  | Return v => (st1, ev, inl v)
                  | Raise x => (st1, ev, inr (Exn x))
                  end
              end
          end
      end
  end.

Definition get_sequence_revision_by_id (e : env) (show_id seq_id : Z)
           (episode_id : option Z) (revision_id : Z) : flix -> ending :=
  fetch e (show_url show_id episode_id seq_id
             ("/revision/" ++ str_of_int revision_id))
        None.

Definition get_sequence_revision_panels (e : env) (show_id seq_id : Z)
           (episode_id : option Z) (revision_id : Z) : flix -> ending :=
  fetch e (show_url show_id episode_id seq_id
             ("/revision/" ++ str_of_int revision_id ++ "/panels"))
        (Some "panels").

Definition get_revision_dialogues (e : env) (show_id seq_id : Z)
           (episode_id : option Z) (revision_id : Z) : flix -> ending :=
  fetch e (show_url show_id episode_id seq_id
             ("/revision/" ++ str_of_int revision_id ++ "/dialogues"))
        (Some "dialogues").

Definition get_panel_dialogues (e : env) (show_id seq_id : Z)
           (episode_id : option Z) (panel_id : Z) : flix -> ending :=
  fetch e (show_url show_id episode_id seq_id
             ("/panel/" ++ str_of_int panel_id ++ "/dialogues"))
        (Some "dialogues").

(** *** [format_panel_for_revision] *)

(** The dictionary appended for one panel. *)
Definition revisioned (dialogue p : pyval) : outcome pyval :=
  obind (dict_get p "duration") (fun duration =>
  obind (dict_get p "panel_id") (fun id =>
  obind (dict_get p "revision_number") (fun revision_number =>
  Return (PDict [("dialogue", dialogue); ("duration", duration); ("id", id);
                 ("revision_number", revision_number)])))).

Fixpoint revisioned_each (dialogue : pyval) (ps : list pyval) : outcome (list pyval) :=
  match ps with
  | [] => Return []
  | p :: r =>
      obind (revisioned dialogue p) (fun x =>
      obind (revisioned_each dialogue r) (fun xs => Return (x :: xs)))
  end.

(** What [for p in v] goes through: the items of a list, the keys of a
    dictionary, the units of a text (on text that is not ASCII the units
    group into characters, each still a [str]) and the octets of a
    [bytes]; the other values are not iterable. *)
Definition iterate (v : pyval) : outcome (list pyval) :=
  match v with
  | PList l => Return l
  | PDict d => Return (map (fun kv => PStr (fst kv)) d)
  | PStr s => Return (map (fun c => PStr (String c EmptyString)) (list_ascii_of_string s))
  | PBytes b => Return (map (fun z => PInt z) (Octets.of_string b))
  | _ => Raise TypeError
  end.

Definition format_panel_for_revision (panels dialogue : pyval) : outcome pyval :=
  obind (iterate panels) (fun ps =>
  obind (revisioned_each dialogue ps) (fun revisioned_panels =>
  Return (PList revisioned_panels))).

(** *** [create_new_sequence_revision] *)

Definition default_comment : pyval := PStr "From AUTO Dialogue Relink".

(** Lines 391-405: the content of the new revision. *)
Definition revision_content (revisioned_panels revision comment : pyval)
  : outcome pyval :=
  obind (dict_get revision "meta_data") (fun meta =>
  obind (dict_get meta "annotations") (fun annotations =>
  obind (dict_get meta "audio_timings") (fun audio_timings =>
  obind (dict_get meta "highlights") (fun highlights =>
  obind (dict_get meta "markers") (fun markers =>
  Return (PDict [("comment", comment);
                 ("imported", PBool false);
                 ("meta_data",
                  PDict [("movie_asset_id", PInt 0);
                         ("audio_asset_id", PInt 0);
                         ("annotations", annotations);
                         ("audio_timings", audio_timings);
                         ("highlights", highlights);
                         ("markers", markers)]);
                 ("revisioned_panels", revisioned_panels)])))))).

Definition create_new_sequence_revision (e : env) (show_id sequence_id : Z)
           (revisioned_panels revision comment : pyval) (st : flix) : ending :=
  let url :=
    "/show/" ++ str_of_int show_id ++ "/sequence/" ++ str_of_int sequence_id
    ++ "/revision" in
  let printed := [Core (Printed (url ++ LF))] in
  match revision_content revisioned_panels revision comment with
  | Raise x => (st, printed, inr (Exn x))
  | Return content =>
      match urlencode e content with
      | Raise x => (st, printed, inr (Exn x))
      | Return encoded =>
          let data := PBytes (encode_utf8 encoded) in
          match get_headers (auth_net e) (clock_now e) (clock_utcnow e) data url "POST" st with
          | (st1, ev, Raise x) => (st1, (printed ++ map Core ev)%list, inr (Exn x))
          | (st1, ev, Return hdr) =>
              let ev := (printed ++ map Core ev)%list in
              match str_add (hostname st1) (PStr url) with
              | Raise x => (st1, ev, inr (Exn x))
              | Return target =>
                  match Json.dumps data with
                  | Raise x => (st1, ev, inr (Exn x))
                  | Return body =>
                      let ev := (ev ++ [Urlopened target hdr body])%list in
                      match open_net e target hdr body with
                      | Failed reason => (st1, ev, inr (URLError reason))
                      | Answered _ None => (st1, ev, inr (Exn ValueError))
                      | Answered _ (Some decoded) => (st1, ev, inl decoded)
                      end
                  end
              end
          end
      end
  end.

(** The object holds the string pair [(k, sk)] and [__get_token] at
    [now] finds it outside the two-hour margin. *)
Definition cached (st : flix) (now : Datetime.datetime) (k sk : string) : Prop :=
  key st = PStr k /\ secret st = PStr sk
  /\ exists E, expiry st = Some E
              /\ Datetime.in_range (now + Datetime.hours 2) = true
              /\ (now + Datetime.hours 2 <= E)%Z.

(** No character of [s] is [c]. *)
Fixpoint avoids (c : ascii) (s : string) : bool :=
  match s with
  | EmptyString => true
  | String a r => negb (Ascii.eqb a c) && avoids c r
  end.

(** The value of [p.get(k)] on a dictionary [p]. *)
Definition get_or_none (p : pyval) (k : string) : pyval :=
  match p with
  | PDict d =>
      match lookup k d with
      | Some x => x
      | None => PNone
      end
  | _ => PNone
  end.

(** The url [create_new_sequence_revision] builds. *)
Definition revision_url (show_id sequence_id : Z) : string :=
  "/show/" ++ str_of_int show_id ++ "/sequence/" ++ str_of_int sequence_id
  ++ "/revision".

(** The text is made of ASCII characters. *)
Fixpoint is_ascii (s : string) : bool :=
  match s with
  | EmptyString => true
  | String a r => (Octets.of_ascii a <? 128)%Z && is_ascii r
  end.

(** The characters [str] prints an integer with. *)
Definition numeric (c : ascii) : bool :=
  match c with
  | "0" | "1" | "2" | "3" | "4" | "5" | "6" | "7" | "8" | "9" | "-" => true
  | _ => false
  end%char.

(** The object is ready for signed requests at the clock of [e]: it holds
    the pair [(k, sk)] outside the margin, [sk] is not empty and the
    hostname is the string [h]. *)
Definition ready (e : env) (st : flix) (k sk h : string) : Prop :=
  cached st (clock_now e) k sk /\ sk <> "" /\ hostname st = PStr h.

(** The headers of a GET of [url] without content signed at [utcnow]. *)
Definition signed_get (k sk url : string) (utcnow : Datetime.datetime) : headers :=
  [("Authorization",
    "FNAUTH " ++ k ++ ":"
    ++ Base64.b64encode
         (HMAC.hmac_sha256 (encode_utf8 sk)
            (encode_utf8
               ("GET" ++ LF ++ LF ++ LF
                ++ before "." (Datetime.isoformat utcnow) ++ "Z" ++ LF ++ url))));
   ("Content-Type", "application/json");
   ("Date", Calendar.http_date utcnow)].

Definition is_urlopen (x : io) : bool :=
  match x with
  | Urlopened _ _ _ => true
  | _ => false
  end.

Definition is_print (x : io) : bool :=
  match x with
  | Core (Printed _) => true
  | _ => false
  end.

Definition is_dict (v : pyval) : bool :=
  match v with
  | PDict _ => true
  | _ => false
  end.

End Client.

(** ** More fixtures *)

Module Cases.
Import Py Flix Client.

Definition panel (id : Z) : pyval :=
  PDict [("panel_id", PInt id); ("revision_number", PInt 1);
         ("duration", PInt 12); ("asset", PStr "a.png")].

Definition dialogue : pyval := PDict [("text", PStr "Hello")].

Definition revision : pyval :=
  PDict [("meta_data", PDict [("markers", PList []); ("highlights", PNone)])].

(** A server of the retrieval urls that answers with the same status and
    body whatever the request, and one that cannot be reached. *)
Definition answering (status_code : Z) (v : pyval) : string -> headers -> response :=
  fun _ _ => Answered status_code (Some v).
Definition unreachable : string -> headers -> response :=
  fun _ _ => Failed "Connection refused".

(** An environment with the given services and clocks. *)
Definition world (auth : network) (get : string -> headers -> response)
           (now utcnow : Datetime.datetime) : env :=
  {| auth_net := auth; get_net := get;
     open_net := fun _ _ _ => Answered 200 (Some (PDict []));
     clock_now := now; clock_utcnow := utcnow;
     urlencode := fun _ => Return "comment=x" |}.

(** One hour before the expiry of the fixtures: inside the margin. *)
Definition late : Datetime.datetime := (Scenario.expiry_instant - Datetime.hours 1)%Z.

(** Three hours before it: outside the margin. *)
Definition early : Datetime.datetime := (Scenario.expiry_instant - Datetime.hours 3)%Z.

(** 9999-12-31T23:59:59, the last whole second of the calendar. *)
Definition last_second : Datetime.datetime := (Datetime.max - 999999)%Z.

(** One hour after the expiry of the fixtures on the UTC clock,
    2024-01-01T11:00:00, and the same instant on the clock of a machine
    five hours behind UTC, 2024-01-01T06:00:00. *)
Definition utc_eleven : Datetime.datetime := (Scenario.expiry_instant + Datetime.hours 1)%Z.
Definition local_six : Datetime.datetime := (utc_eleven - Datetime.hours 5)%Z.

End Cases.

(** * Properties *)

Import Py Flix.

(** Unfolds a method down to the replies of the network and the lookups
    in the response. *)
Ltac run_method :=
  cbv [authenticate get_token reset bind emit lift ret raise modify get
       str_add getitem split_dot_head strptime
       state_of events_of result_of fst snd].

(** ** The library functions on published test vectors *)

Example md5_rfc1321 :
  MD5.hexdigest "" = "d41d8cd98f00b204e9800998ecf8427e"
  /\ MD5.hexdigest "abc" = "900150983cd24fb0d6963f7d28e17f72"
  /\ MD5.hexdigest
       "12345678901234567890123456789012345678901234567890123456789012345678901234567890"
     = "57edf4a22be3c955ac49da2e2107b67a".
Proof. repeat split; vm_compute; reflexivity. Qed.

Example sha256_fips180 :
  Hex.hexlify (SHA256.digest "abc")
  = "ba7816bf8f01cfea414140de5dae2223b00361a396177a9cb410ff61f20015ad"
  /\ Hex.hexlify (SHA256.digest "abcdbcdecdefdefgefghfghighijhijkijkljklmklmnlmnomnopnopq")
     = "248d6a61d20638b8e5c026930c3e6039a33ce45964ff2167f6ecedd419db06c1".
Proof. split; vm_compute; reflexivity. Qed.

Example hmac_sha256_rfc4231_case2 :
  Hex.hexlify (HMAC.hmac_sha256 "Jefe" "what do ya want for nothing?")
  = "5bdcc146bf60754e6a042426089575c75a003f089d2739839dec58b964ec3843".
Proof. vm_compute; reflexivity. Qed.

Example b64encode_rfc4648 :
  map Base64.b64encode ["f"; "fo"; "foo"; "foob"; "fooba"; "foobar"]
  = ["Zg=="; "Zm8="; "Zm9v"; "Zm9vYg=="; "Zm9vYmE="; "Zm9vYmFy"].
Proof. vm_compute; reflexivity. Qed.

Example isoformat_samples :
  option_map Datetime.isoformat (Datetime.make 2024 2 29 23 59 59 1200)
  = Some "2024-02-29T23:59:59.001200"
  /\ option_map Datetime.isoformat (Datetime.make 999 12 31 3 4 5 0)
     = Some "0999-12-31T03:04:05"
  /\ Datetime.isoformat Datetime.max = "9999-12-31T23:59:59.999999".
Proof. repeat split; vm_compute; reflexivity. Qed.

Example strptime_samples :
  Datetime.strptime "2024-01-01T10:00:00" = Scenario.ten_o_clock
  /\ Datetime.strptime "2024-1- 1t10:0:0" = Scenario.ten_o_clock
  /\ Datetime.strptime "2024-01-01T10:00:00Z" = None
  /\ Datetime.strptime "2024-02-30T10:00:00" = None
  /\ Datetime.strptime "2024-01-01T24:00:00" = None
  /\ Datetime.strptime "2024-01-01T10:00:60" = None.
Proof. repeat split; vm_compute; reflexivity. Qed.

Example json_dumps_samples :
  Json.dumps (PDict [("a", PList [PInt 1; PBool true; PNone]); ("b", PInt (-5))])
  = Return ("{" ++ DQUOTE ++ "a" ++ DQUOTE ++ ": [1, true, null], "
                ++ DQUOTE ++ "b" ++ DQUOTE ++ ": -5}")
  /\ Json.dumps Scenario.unserialisable = Raise TypeError.
Proof. split; vm_compute; reflexivity. Qed.

(** ** Request signing *)

Lemma string_app_assoc (a b c : string) : (a ++ b) ++ c = a ++ (b ++ c).
Proof.
  induction a as [ | x a IH ]; simpl.
  - reflexivity.
  - rewrite IH. reflexivity.
Qed.

Lemma length_zero_iff_empty (s : string) :
  (String.length s =? 0)%nat = true <-> s = "".
Proof.
  destruct s; simpl; split; intro H; try reflexivity; discriminate H.
Qed.

Lemma content_md5_unrecognised (content : pyval) :
  (forall s, content <> PStr s) ->
  (forall b, content <> PBytes b) ->
  (forall d, content <> PDict d) ->
  content_md5 content = Return "".
Proof.
  intros Hs Hb Hd. unfold content_md5.
  destruct content as [ | b | n | s | b | l | d ]; try (destruct (truthy _); reflexivity).
  - exfalso. apply (Hs s). reflexivity.
  - exfalso. apply (Hb b). reflexivity.
  - exfalso. apply (Hd d). reflexivity.
Qed.

Lemma content_md5_bytes (b : string) :
  content_md5 (PBytes b)
  = Return (if b =? "" then "" else MD5.hexdigest (Hex.hexlify b)).
Proof.
  unfold content_md5, truthy. destruct (b =? ""); reflexivity.
Qed.

(** The canonical string is built as soon as the fingerprint is. *)
Lemma raw_string_built (url : string) (content : pyval)
      (http_method content_type : string) (dt : Datetime.datetime) (md5 : string) :
  content_md5 content = Return md5 ->
  exists raw, raw_string url content http_method content_type dt = Return raw.
Proof.
  intros H. unfold raw_string. rewrite H. simpl. eexists. reflexivity.
Qed.

(** C1: for method "GET", no content, the url
    "/show/1/sequence/2/revision/1" and the timestamp 2024-01-01T00:00:00,
    the canonical string is "GET", three newlines,
    "2024-01-01T00:00:00Z", a newline and the url path, whatever the
    content type. *)
Theorem raw_string_get_scenario :
  forall content_type : string,
    option_map (raw_string Scenario.revision_url PNone "GET" content_type)
               Scenario.new_year
    = Some (Return ("GET" ++ LF ++ LF ++ LF ++ "2024-01-01T00:00:00Z" ++ LF
                    ++ "/show/1/sequence/2/revision/1")).
Proof.
  intro content_type. vm_compute. reflexivity.
Qed.

(** C2: with a secret that is not empty, whenever the canonical string
    [raw] is built, the value [__fn_sign] returns is "FNAUTH ", the access
    key id, a colon and the base64 encoding of the HMAC-SHA256 digest of
    the UTF-8 bytes of [raw] keyed by the UTF-8 bytes of the secret. *)
Theorem fn_sign_value :
  forall (access_key_id secret_access_key url : string) (content : pyval)
         (http_method content_type : string) (dt : Datetime.datetime)
         (raw : string),
    secret_access_key <> "" ->
    raw_string url content http_method content_type dt = Return raw ->
    fn_sign access_key_id secret_access_key url content http_method content_type dt
    = Return ("FNAUTH " ++ access_key_id ++ ":"
              ++ Base64.b64encode
                   (HMAC.hmac_sha256 (encode_utf8 secret_access_key)
                                     (encode_utf8 raw))).
Proof.
  intros id sk url content m ct dt raw Hsk Hraw.
  unfold fn_sign. rewrite Hraw. unfold obind.
  destruct (String.length sk =? 0)%nat eqn:E.
  - apply length_zero_iff_empty in E. contradiction.
  - reflexivity.
Qed.

Lemma fn_sign_value_witness :
  fn_sign "K1" "S3cr3t" "/show/1/sequence/2/revision/1?page=2" (PBytes "foo")
          "post" "application/json" 63839664000000000
  = Return ("FNAUTH " ++ "K1" ++ ":"
            ++ Base64.b64encode
                 (HMAC.hmac_sha256 (encode_utf8 "S3cr3t")
                    (encode_utf8
                       ("POST" ++ LF ++ "cf1ced262b274ec12453cee135888c16" ++ LF
                        ++ "application/json" ++ LF ++ "2024-01-01T00:00:00Z" ++ LF
                        ++ "/show/1/sequence/2/revision/1")))).
Proof.
  apply fn_sign_value.
  - discriminate.
  - vm_compute. reflexivity.
Defined.




(** C5, on the code: for the text "foo" no fingerprint is computed, the
    [str] handed to [hashlib.md5] raises [TypeError]; for the bytes of
    "foo" the fingerprint is the MD5 of their hex encoding "666f6f".  The
    MD5 of the raw bytes, which the claim promises for text, is a third
    value the code never produces. *)
Theorem content_md5_text_and_bytes :
  content_md5 (PStr "foo") = Raise TypeError
  /\ content_md5 (PBytes "foo") = Return (MD5.hexdigest "666f6f")
  /\ MD5.hexdigest "666f6f" = "cf1ced262b274ec12453cee135888c16"
  /\ MD5.hexdigest "foo" = "acbd18db4cc2f85cedef654fccc4a4d8"
  /\ (forall (url http_method content_type : string) (dt : Datetime.datetime),
         raw_string url (PStr "foo") http_method content_type dt = Raise TypeError).
Proof.
  repeat split; try (vm_compute; reflexivity).
Qed.

(** C10: a content that is neither a string, nor bytes, nor a mapping gets
    no fingerprint: the canonical string and the signature are those of
    the same request without content. *)
Theorem fn_sign_unrecognised_content :
  forall (access_key_id secret_access_key url : string) (content : pyval)
         (http_method content_type : string) (dt : Datetime.datetime),
    (forall s, content <> PStr s) ->
    (forall b, content <> PBytes b) ->
    (forall d, content <> PDict d) ->
    content_md5 content = Return ""
    /\ raw_string url content http_method content_type dt
       = Return (upper http_method ++ LF ++ LF ++ LF
                 ++ before "." (Datetime.isoformat dt) ++ "Z" ++ LF ++ before "?" url)
    /\ raw_string url content http_method content_type dt
       = raw_string url PNone http_method content_type dt
    /\ fn_sign access_key_id secret_access_key url content http_method content_type dt
       = fn_sign access_key_id secret_access_key url PNone http_method content_type dt.
Proof.
  intros id sk url content m ct dt Hs Hb Hd.
  pose proof (content_md5_unrecognised content Hs Hb Hd) as Hmd5.
  assert (Hraw : raw_string url content m ct dt = raw_string url PNone m ct dt).
  { unfold raw_string. rewrite Hmd5. reflexivity. }
  repeat split.
  - exact Hmd5.
  - rewrite Hraw. unfold raw_string, content_md5, truthy, obind.
    change (negb ("" =? "")) with false. cbv iota.
    rewrite !string_app_assoc. reflexivity.
  - exact Hraw.
  - unfold fn_sign. rewrite Hraw. reflexivity.
Qed.

Lemma fn_sign_unrecognised_content_witness :
  fn_sign "K1" "S3cr3t" "/show/1/sequence/2/revision" (PList [PInt 1; PStr "a"])
          "POST" "application/json" 63839664000000000
  = fn_sign "K1" "S3cr3t" "/show/1/sequence/2/revision" PNone
            "POST" "application/json" 63839664000000000.
Proof.
  apply (fn_sign_unrecognised_content "K1" "S3cr3t" "/show/1/sequence/2/revision"
           (PList [PInt 1; PStr "a"]) "POST" "application/json" 63839664000000000);
    intros x H; discriminate H.
Defined.

(** ** Running methods *)

Lemma bind_run {A B} (m : M A) (k : A -> M B) (st : flix) :
  bind m k st =
  match result_of (m st) with
  | Return a =>
      let r := k a (state_of (m st)) in
      (state_of r, (events_of (m st) ++ events_of r)%list, result_of r)
  | Raise e => (state_of (m st), events_of (m st), Raise e)
  end.
Proof.
  unfold bind, state_of, events_of, result_of.
  destruct (m st) as [[s1 e1] [a | e]]; simpl.
  - destruct (k a s1) as [[s2 e2] r]. reflexivity.
  - reflexivity.
Qed.

(** The failure branch of [authenticate]: the exception is caught, a line
    is printed and [None] is returned, the object being left alone. *)
Lemma authenticate_request_exception (net : network) (h l p err : string) (st : flix) :
  net (auth_url h) (basic_auth l p) = RequestException err ->
  authenticate net (PStr h) (PStr l) (PStr p) st
  = (st,
     [Called_authenticate (PStr h) (PStr l) (PStr p);
      Posted (auth_url h) (basic_auth l p);
      Printed ("Authentification failed " ++ err ++ LF)],
     Return PNone).
Proof.
  intros Hnet. unfold auth_url, basic_auth in *.
  run_method. rewrite Hnet. reflexivity.
Qed.

(** The success branch of [authenticate] on a response that carries the
    three token fields. *)
Lemma authenticate_token (net : network) (h l p : string) (st : flix)
      (d : list (string * pyval)) (i sk : pyval) (e : string) (t : Datetime.datetime) :
  net (auth_url h) (basic_auth l p) = Body (Some (PDict d)) ->
  lookup "id" d = Some i ->
  lookup "secret_access_key" d = Some sk ->
  lookup "expiry_date" d = Some (PStr e) ->
  Datetime.strptime (before "." e) = Some t ->
  authenticate net (PStr h) (PStr l) (PStr p) st
  = ({| hostname := PStr h; login := PStr l; password := PStr p;
        key := i; secret := sk; expiry := Some t |},
     [Called_authenticate (PStr h) (PStr l) (PStr p);
      Posted (auth_url h) (basic_auth l p)],
     Return (PDict d)).
Proof.
  intros Hnet Hi Hsk He Ht. unfold auth_url, basic_auth in *.
  run_method. rewrite Hnet, Hi, Hsk, He, Ht. reflexivity.
Qed.

Lemma bind_events_prefix {A B} (m : M A) (k : A -> M B) (st : flix) :
  exists tl, events_of (bind m k st) = (events_of (m st) ++ tl)%list.
Proof.
  rewrite bind_run. destruct (result_of (m st)) as [a | e].
  - eexists. reflexivity.
  - exists []. rewrite app_nil_r. reflexivity.
Qed.

Lemma bind_get {B} (k : flix -> M B) (st : flix) : bind get k st = k st st.
Proof.
  unfold bind, get. destruct (k st st) as [[s2 e2] r]. reflexivity.
Qed.

Lemma bind_lift {A B} (x : outcome A) (k : A -> M B) (st : flix) :
  bind (lift x) k st =
  match x with
  | Return a => k a st
  | Raise e => (st, [], Raise e)
  end.
Proof.
  unfold bind, lift. destruct x as [a | e].
  - destruct (k a st) as [[s2 e2] r]. reflexivity.
  - reflexivity.
Qed.

Lemma bind_ret {A B} (a : A) (k : A -> M B) (st : flix) : bind (ret a) k st = k a st.
Proof.
  unfold bind, ret. destruct (k a st) as [[s2 e2] r]. reflexivity.
Qed.

Lemma bind_modify {B} (f : flix -> flix) (k : unit -> M B) (st : flix) :
  bind (modify f) k st = k tt (f st).
Proof.
  unfold bind, modify. destruct (k tt (f st)) as [[s2 e2] r]. reflexivity.
Qed.

(** Reading the pair out at the end of [__get_token] changes neither the
    object nor the events. *)
Lemma bind_read_state {A B} (m : M A) (f : flix -> B) (st : flix) :
  state_of (bind m (fun _ => bind get (fun s => ret (f s))) st) = state_of (m st)
  /\ events_of (bind m (fun _ => bind get (fun s => ret (f s))) st) = events_of (m st).
Proof.
  rewrite bind_run. destruct (result_of (m st)) as [a | e].
  - rewrite bind_get. unfold ret, state_of, events_of. simpl.
    rewrite app_nil_r. split; reflexivity.
  - split; reflexivity.
Qed.

Lemma is_none_true (v : pyval) : is_none v = true <-> v = PNone.
Proof.
  destruct v; simpl; split; intro H; try reflexivity; discriminate H.
Qed.

Lemma is_none_false (v : pyval) : is_none v = false <-> v <> PNone.
Proof.
  destruct v; simpl; split; intro H; try reflexivity; try discriminate H;
    try (intro K; discriminate K).
  exfalso. apply H. reflexivity.
Qed.

(** ** [authenticate] *)

Lemma authenticate_announced (net : network) (h l p : pyval) (st : flix) :
  exists tl, events_of (authenticate net h l p st) = Called_authenticate h l p :: tl.
Proof.
  unfold authenticate. rewrite bind_run.
  cbn [emit result_of state_of events_of fst snd app].
  eexists. reflexivity.
Qed.

(** Whatever its arguments, on a network that serves tokens a call either
    leaves the object as it was, returning [None] or raising, or stores
    the identity and the three token attributes and returns the
    response. *)
Lemma authenticate_effect (net : network) (h l p : pyval) (st : flix) :
  serves_tokens net ->
  let r := authenticate net h l p st in
  (state_of r = st /\ (result_of r = Return PNone \/ exists e, result_of r = Raise e))
  \/ (exists d i sk e t,
         result_of r = Return (PDict d)
         /\ lookup "id" d = Some i
         /\ lookup "secret_access_key" d = Some sk
         /\ lookup "expiry_date" d = Some (PStr e)
         /\ Datetime.strptime (before "." e) = Some t
         /\ is_none i = false /\ is_none sk = false
         /\ state_of r = {| hostname := h; login := l; password := p;
                            key := i; secret := sk; expiry := Some t |}).
Proof.
  intros Hnet r. subst r.
  destruct l as [ | ? | ? | l | ? | ? | ? ];
    try (left; split; [reflexivity | right; eexists; reflexivity]).
  destruct p as [ | ? | ? | p | ? | ? | ? ];
    try (left; split; [reflexivity | right; eexists; reflexivity]).
  destruct h as [ | ? | ? | h | ? | ? | ? ];
    try (left; split; [reflexivity | right; eexists; reflexivity]).
  run_method.
  destruct (net _ _) as [err | [v | ]] eqn:Hreply.
  - left. split; [reflexivity | left; reflexivity].
  - apply Hnet in Hreply. unfold token_ok in Hreply.
    destruct v as [ | ? | ? | ? | ? | ? | d ]; try discriminate Hreply.
    destruct (lookup "id" d) as [i | ] eqn:Hi; try discriminate Hreply.
    destruct (lookup "secret_access_key" d) as [sk | ] eqn:Hsk; try discriminate Hreply.
    destruct (lookup "expiry_date" d) as [ed | ] eqn:He; try discriminate Hreply.
    destruct ed as [ | ? | ? | e | ? | ? | ? ]; try discriminate Hreply.
    destruct (Datetime.strptime (before "." e)) as [t | ] eqn:Ht.
    2:{ rewrite andb_false_r in Hreply. discriminate Hreply. }
    rewrite andb_true_r in Hreply. apply andb_prop in Hreply.
    destruct Hreply as [Hni Hnsk].
    apply negb_true_iff in Hni, Hnsk.
    right. exists d, i, sk, e, t.
    rewrite Hi, Hsk, He, Ht. simpl. repeat split; assumption.
  - left. split; [reflexivity | right; eexists; reflexivity].
Qed.

Lemma authenticate_keeps_unit (net : network) (h l p : pyval) (st : flix) :
  serves_tokens net ->
  token_unit st = true ->
  token_unit (state_of (authenticate net h l p st)) = true.
Proof.
  intros Hnet Hst.
  destruct (authenticate_effect net h l p st Hnet)
    as [[Hsame _] | (d & i & sk & e & t & _ & _ & _ & _ & _ & Hni & Hnsk & Hs)].
  - rewrite Hsame. exact Hst.
  - rewrite Hs. unfold token_unit. simpl. rewrite Hni, Hnsk. reflexivity.
Qed.

Lemma before_prefix (c : ascii) (main rest : string) :
  before c main = main ->
  before c (main ++ String c rest) = main.
Proof.
  induction main as [ | a main IH ]; simpl; intros H.
  - rewrite Ascii.eqb_refl. reflexivity.
  - destruct (Ascii.eqb a c).
    + discriminate H.
    + injection H as H. rewrite (IH H). reflexivity.
Qed.

(** ** [__get_token] *)

Lemma refresh_needed_in_range (now : Datetime.datetime) (st : flix) :
  Datetime.in_range (now + Datetime.hours 2) = true ->
  refresh_needed now st
  = Return (is_none (key st) || is_none (secret st)
            || match expiry st with
               | None => true
               | Some e => (e <? now + Datetime.hours 2)%Z
               end).
Proof.
  intros Hrange. unfold refresh_needed, Datetime.add, Datetime.gt.
  rewrite Hrange.
  destruct (is_none (key st)); [reflexivity | ].
  destruct (is_none (secret st)); [reflexivity | ].
  destruct (expiry st); reflexivity.
Qed.

Lemma get_token_refreshed (net : network) (now : Datetime.datetime) (st : flix) :
  refreshed (get_token net now st) =
  match refresh_needed now st with
  | Return b => b
  | Raise _ => false
  end.
Proof.
  unfold get_token, refreshed. rewrite bind_get, bind_lift.
  destruct (refresh_needed now st) as [[ | ] | e].
  - rewrite (proj2 (bind_read_state _ _ _)).
    destruct (bind_events_prefix (authenticate net (hostname st) (login st) (password st))
                (fun authentificationToken =>
                   auth_id <- lift (getitem authentificationToken "id") ;;
                   auth_secret_token <- lift (getitem authentificationToken "secret_access_key") ;;
                   auth_expiry_date <- lift (getitem authentificationToken "expiry_date") ;;
                   auth_expiry_date <- lift (split_dot_head auth_expiry_date) ;;
                   modify (set_key auth_id) ;;;
                   modify (set_secret auth_secret_token) ;;;
                   t <- lift (strptime auth_expiry_date) ;;
                   modify (set_expiry t)) st) as [tl Htl].
    rewrite Htl.
    destruct (authenticate_announced net (hostname st) (login st) (password st) st)
      as [tl0 Htl0].
    rewrite Htl0. reflexivity.
  - rewrite bind_ret, bind_get. reflexivity.
  - reflexivity.
Qed.

Lemma get_token_cached (net : network) (now : Datetime.datetime) (st : flix) :
  refresh_needed now st = Return false ->
  get_token net now st = (st, [], Return (key st, secret st)).
Proof.
  intros H. unfold get_token. rewrite bind_get, bind_lift, H, bind_ret, bind_get.
  reflexivity.
Qed.

Lemma get_token_keeps_unit (net : network) (now : Datetime.datetime) (st : flix) :
  serves_tokens net ->
  token_unit st = true ->
  token_unit (state_of (get_token net now st)) = true.
Proof.
  intros Hnet Hst. unfold get_token. rewrite bind_get, bind_lift.
  destruct (refresh_needed now st) as [[ | ] | e].
  - rewrite (proj1 (bind_read_state _ _ _)). rewrite bind_run.
    destruct (authenticate_effect net (hostname st) (login st) (password st) st Hnet)
      as [[Hsame [Hnone | [e He]]]
         | (d & i & sk & e & t & Hr & Hi & Hsk & He & Ht & Hni & Hnsk & Hs)].
    + rewrite Hnone, Hsame. exact Hst.
    + rewrite He, Hsame. exact Hst.
    + rewrite Hr, Hs. cbv zeta.
      rewrite bind_lift. unfold getitem at 1. rewrite Hi.
      rewrite bind_lift. unfold getitem at 1. rewrite Hsk.
      rewrite bind_lift. unfold getitem at 1. rewrite He.
      rewrite bind_lift. unfold split_dot_head.
      rewrite !bind_modify, bind_lift. unfold strptime. rewrite Ht.
      unfold modify, state_of, token_unit. simpl.
      rewrite Hni, Hnsk. reflexivity.
  - rewrite bind_ret, bind_get. exact Hst.
  - exact Hst.
Qed.

Lemma exec_keeps_unit (o : op) (st : flix) :
  op_ok o -> token_unit st = true -> token_unit (exec st o) = true.
Proof.
  destruct o as [net h l p | net now | ]; simpl; intros Hok Hst.
  - apply authenticate_keeps_unit; assumption.
  - apply get_token_keeps_unit; assumption.
  - reflexivity.
Qed.

Lemma serving_serves_tokens (v : pyval) :
  token_ok v = true -> serves_tokens (Scenario.serving v).
Proof.
  intros Hv url hdr w Hw. unfold Scenario.serving in Hw.
  injection Hw as Hw. subst w. exact Hv.
Qed.

Lemma failing_serves_tokens (err : string) : serves_tokens (Scenario.failing err).
Proof.
  intros url hdr w Hw. unfold Scenario.failing in Hw. discriminate Hw.
Qed.

(** ** The claims on the credential state *)

(** C3, against the claim as written: with the three attributes present
    and the expiry [E] at 9999-12-31T23:59:59, a call at [E - 2h + 1s]
    does not refresh although the clock plus two hours is after [E]:
    adding the two hours leaves the range of [datetime] and raises
    [OverflowError] before [authenticate] is entered. *)
Lemma get_token_overflow_no_refresh :
  let E := Cases.last_second in
  let now := (E - Datetime.hours 2 + Datetime.seconds 1)%Z in
  let r := get_token (Scenario.failing "unreachable") now (Scenario.session E) in
  Datetime.isoformat E = "9999-12-31T23:59:59"
  /\ Datetime.in_range E = true
  /\ Datetime.in_range now = true
  /\ (now + Datetime.hours 2 > E)%Z
  /\ refreshed r = false
  /\ result_of r = Raise OverflowError.
Proof.
  vm_compute. repeat split; reflexivity.
Qed.

(** C3, as the code has it: when the clock plus two hours is still a
    datetime, that is not after 9999-12-31T23:59:59.999999, [__get_token]
    enters [authenticate] exactly when the key, the secret or the expiry
    is absent or the clock plus two hours is strictly after the stored
    expiry.  With the three attributes present and expiry [E], a call at
    [E - 2h - 1s] does not refresh and a call at [E - 2h + 1s] does.  A
    call that does not refresh returns the cached pair, changes nothing
    and causes no event. *)
Theorem get_token_refresh :
  forall (net : network) (now : Datetime.datetime) (st : flix),
    Datetime.in_range (now + Datetime.hours 2) = true ->
    let r := get_token net now st in
    (refreshed r = true <->
     (key st = PNone \/ secret st = PNone \/ expiry st = None
      \/ exists E, expiry st = Some E /\ (now + Datetime.hours 2 > E)%Z))
    /\ (forall E,
           key st <> PNone -> secret st <> PNone -> expiry st = Some E ->
           (now = (E - Datetime.hours 2 - Datetime.seconds 1)%Z -> refreshed r = false)
           /\ (now = (E - Datetime.hours 2 + Datetime.seconds 1)%Z -> refreshed r = true))
    /\ (refreshed r = false -> r = (st, [], Return (key st, secret st))).
Proof.
  intros net now st Hrange r. subst r.
  pose proof (refresh_needed_in_range now st Hrange) as Hneed.
  rewrite get_token_refreshed, Hneed.
  split; [ | split ].
  - rewrite !orb_true_iff, !is_none_true. split.
    + intros [[Hk | Hs] | He].
      * left. exact Hk.
      * right. left. exact Hs.
      * destruct (expiry st) as [E | ].
        -- right. right. right. exists E. split; [reflexivity | ].
           apply Z.ltb_lt in He. lia.
        -- right. right. left. reflexivity.
    + intros [Hk | [Hs | [He | [E [He Hgt]]]]].
      * left. left. exact Hk.
      * left. right. exact Hs.
      * right. rewrite He. reflexivity.
      * right. rewrite He. apply Z.ltb_lt. lia.
  - intros E Hk Hs He. rewrite He.
    apply is_none_false in Hk, Hs. rewrite Hk, Hs. simpl.
    unfold Datetime.seconds, Datetime.usec_per_sec.
    split; intros Hnow.
    + apply Z.ltb_ge. lia.
    + apply Z.ltb_lt. lia.
  - intros Hfalse. apply get_token_cached. rewrite Hneed, Hfalse. reflexivity.
Qed.

Lemma get_token_refresh_witness :
  refreshed (get_token (Scenario.failing "unreachable")
               (Scenario.expiry_instant - Datetime.hours 2 - Datetime.seconds 1)
               (Scenario.session Scenario.expiry_instant)) = false
  /\ refreshed (get_token (Scenario.failing "unreachable")
                  (Scenario.expiry_instant - Datetime.hours 2 + Datetime.seconds 1)
                  (Scenario.session Scenario.expiry_instant)) = true.
Proof.
  split.
  - apply (proj1 (proj1 (proj2
        (get_token_refresh (Scenario.failing "unreachable")
           (Scenario.expiry_instant - Datetime.hours 2 - Datetime.seconds 1)
           (Scenario.session Scenario.expiry_instant) eq_refl))
        Scenario.expiry_instant
        ltac:(discriminate) ltac:(discriminate) eq_refl)).
    reflexivity.
  - apply (proj2 (proj1 (proj2
        (get_token_refresh (Scenario.failing "unreachable")
           (Scenario.expiry_instant - Datetime.hours 2 + Datetime.seconds 1)
           (Scenario.session Scenario.expiry_instant) eq_refl))
        Scenario.expiry_instant
        ltac:(discriminate) ltac:(discriminate) eq_refl)).
    reflexivity.
Defined.

(** C6, against the claim as written: on a failed request [authenticate]
    raises nothing, it returns [None]. *)
Lemma authenticate_failure_not_raised :
  result_of (authenticate (Scenario.failing "503 Server Error")
               Scenario.host Scenario.user Scenario.pass init)
  = Return PNone
  /\ ~ (exists e,
           result_of (authenticate (Scenario.failing "503 Server Error")
                        Scenario.host Scenario.user Scenario.pass init)
           = Raise e).
Proof.
  split.
  - vm_compute. reflexivity.
  - intros [e He]. vm_compute in He. discriminate He.
Qed.

(** C6, as the code has it: for every hostname, login and password, when
    the POST to hostname/authenticate raises a request exception, from a
    failure of the transport or from [raise_for_status] on a 4xx or 5xx
    status, [authenticate] catches it, prints "Authentification failed"
    followed by the cause, and returns [None]; nothing is raised. *)
Theorem authenticate_failure_reported :
  forall (net : network) (h l p err : string) (st : flix),
    net (auth_url h) (basic_auth l p) = RequestException err ->
    result_of (authenticate net (PStr h) (PStr l) (PStr p) st) = Return PNone
    /\ events_of (authenticate net (PStr h) (PStr l) (PStr p) st)
       = [Called_authenticate (PStr h) (PStr l) (PStr p);
          Posted (auth_url h) (basic_auth l p);
          Printed ("Authentification failed " ++ err ++ LF)].
Proof.
  intros net h l p err st Hnet.
  rewrite (authenticate_request_exception net h l p err st Hnet).
  split; reflexivity.
Qed.

Lemma authenticate_failure_reported_witness :
  result_of (authenticate (Scenario.failing "503 Server Error")
               (PStr "https://flix.example") (PStr "artist") (PStr "pa55word") init)
  = Return PNone
  /\ events_of (authenticate (Scenario.failing "503 Server Error")
                  (PStr "https://flix.example") (PStr "artist") (PStr "pa55word") init)
     = [Called_authenticate (PStr "https://flix.example") (PStr "artist")
          (PStr "pa55word");
        Posted (auth_url "https://flix.example") (basic_auth "artist" "pa55word");
        Printed ("Authentification failed " ++ "503 Server Error" ++ LF)].
Proof.
  apply (authenticate_failure_reported (Scenario.failing "503 Server Error")
           "https://flix.example" "artist" "pa55word" "503 Server Error" init).
  reflexivity.
Defined.

(** C9: when the POST raises a request exception, [authenticate] returns
    [None] and the object is exactly as before the call, field by field. *)
Theorem authenticate_failure_no_effect :
  forall (net : network) (h l p err : string) (st : flix),
    net (auth_url h) (basic_auth l p) = RequestException err ->
    let r := authenticate net (PStr h) (PStr l) (PStr p) st in
    result_of r = Return PNone
    /\ state_of r = st
    /\ hostname (state_of r) = hostname st
    /\ login (state_of r) = login st
    /\ password (state_of r) = password st
    /\ key (state_of r) = key st
    /\ secret (state_of r) = secret st
    /\ expiry (state_of r) = expiry st.
Proof.
  intros net h l p err st Hnet r. subst r.
  rewrite (authenticate_request_exception net h l p err st Hnet).
  repeat split; reflexivity.
Qed.

Lemma authenticate_failure_no_effect_witness :
  state_of (authenticate (Scenario.failing "Connection refused")
              (PStr "https://other.example") (PStr "someone") (PStr "else")
              (Scenario.session Scenario.expiry_instant))
  = Scenario.session Scenario.expiry_instant.
Proof.
  apply (authenticate_failure_no_effect (Scenario.failing "Connection refused")
           "https://other.example" "someone" "else" "Connection refused"
           (Scenario.session Scenario.expiry_instant)).
  reflexivity.
Defined.

(** C7, against the claim as written: a response whose [expiry_date] does
    not parse makes [authenticate] raise after the key and the secret are
    set, the expiry staying absent; and a response whose [id] is null is
    stored with the key absent beside a secret and an expiry. *)
Lemma token_unit_broken_by_unparsable_expiry :
  (let r := authenticate (Scenario.serving (Scenario.token "2024-01-01T10:00:00Z"))
              Scenario.host Scenario.user Scenario.pass init in
   result_of r = Raise ValueError)
  /\ (let st := run [Authenticate
                       (Scenario.serving (Scenario.token "2024-01-01T10:00:00Z"))
                       Scenario.host Scenario.user Scenario.pass] in
      key st = PStr "K1" /\ secret st = PStr "S3cr3t" /\ expiry st = None
      /\ token_unit st = false)
  /\ (let st := run [Authenticate (Scenario.serving Scenario.token_without_id)
                       Scenario.host Scenario.user Scenario.pass] in
      key st = PNone /\ secret st = PStr "S3cr3t" /\ expiry st <> None
      /\ token_unit st = false).
Proof.
  vm_compute. repeat split; try reflexivity. discriminate.
Qed.

(** C7, as the code has it: starting from the empty object, after any
    sequence of calls to [authenticate], [__get_token] and [reset] made on
    networks whose successful responses carry a token (an object with
    non-null [id] and [secret_access_key] and an [expiry_date] that parses
    once its fraction is dropped), the key, the secret and the expiry are
    all present or all absent. *)
Theorem token_unit_invariant :
  forall ops : list op,
    Forall op_ok ops -> token_unit (run ops) = true.
Proof.
  intros ops. unfold run.
  assert (Hgen : forall st, token_unit st = true -> Forall op_ok ops ->
                            token_unit (fold_left exec ops st) = true).
  { induction ops as [ | o ops IH ]; intros st Hst Hok.
    - exact Hst.
    - simpl. inversion Hok as [ | o' ops' Ho Hops ]; subst.
      apply IH; [ | exact Hops ].
      apply exec_keeps_unit; assumption. }
  intros Hok. apply Hgen; [reflexivity | exact Hok].
Qed.

Lemma token_unit_invariant_witness :
  token_unit
    (run [GetToken (Scenario.failing "unreachable") Scenario.expiry_instant;
          Authenticate (Scenario.serving (Scenario.token "2024-01-01T10:00:00.123456"))
            Scenario.host Scenario.user Scenario.pass;
          GetToken (Scenario.serving (Scenario.token "2024-01-02T10:00:00.5"))
            Scenario.expiry_instant;
          Authenticate (Scenario.failing "503 Server Error")
            Scenario.host Scenario.user PNone;
          Reset])
  = true.
Proof.
  apply token_unit_invariant.
  repeat constructor.
  - apply failing_serves_tokens.
  - apply serving_serves_tokens. vm_compute. reflexivity.
  - apply serving_serves_tokens. vm_compute. reflexivity.
  - apply failing_serves_tokens.
Defined.

(** The fraction of [expiry_date] is dropped: when the response carries
    an [expiry_date] made of a timestamp, a dot and a fraction,
    [authenticate] succeeds and the stored expiry is the timestamp alone,
    a naive datetime.  The date 2024-01-01T10:00:00.123456 is stored as
    2024-01-01T10:00:00. *)
Theorem authenticate_drops_fraction :
  forall (net : network) (h l p : string) (st : flix)
         (d : list (string * pyval)) (i sk : pyval)
         (main fraction : string) (t : Datetime.datetime),
    net (auth_url h) (basic_auth l p) = Body (Some (PDict d)) ->
    lookup "id" d = Some i ->
    lookup "secret_access_key" d = Some sk ->
    lookup "expiry_date" d = Some (PStr (main ++ "." ++ fraction)) ->
    before "." main = main ->
    Datetime.strptime main = Some t ->
    let r := authenticate net (PStr h) (PStr l) (PStr p) st in
    result_of r = Return (PDict d) /\ expiry (state_of r) = Some t.
Proof.
  intros net h l p st d i sk main fraction t Hnet Hi Hsk He Hmain Ht r. subst r.
  assert (Hcut : before "." (main ++ "." ++ fraction) = main).
  { apply (before_prefix "."%char main fraction). exact Hmain. }
  rewrite <- Hcut in Ht.
  rewrite (authenticate_token net h l p st d i sk _ t Hnet Hi Hsk He Ht).
  split; reflexivity.
Qed.

Lemma authenticate_drops_fraction_witness :
  let r := authenticate
             (Scenario.serving (Scenario.token "2024-01-01T10:00:00.123456"))
             (PStr "https://flix.example") (PStr "artist") (PStr "pa55word") init in
  result_of r = Return (Scenario.token "2024-01-01T10:00:00.123456")
  /\ expiry (state_of r) = Scenario.ten_o_clock
  /\ option_map Datetime.isoformat (expiry (state_of r)) = Some "2024-01-01T10:00:00".
Proof.
  pose proof (authenticate_drops_fraction
                (Scenario.serving (Scenario.token "2024-01-01T10:00:00.123456"))
                "https://flix.example" "artist" "pa55word" init
                [("id", PStr "K1"); ("secret_access_key", PStr "S3cr3t");
                 ("expiry_date", PStr "2024-01-01T10:00:00.123456")]
                (PStr "K1") (PStr "S3cr3t") "2024-01-01T10:00:00" "123456"
                Scenario.expiry_instant
                eq_refl eq_refl eq_refl eq_refl eq_refl eq_refl) as [Hr He].
  cbv zeta. rewrite He. split; [exact Hr | split; reflexivity].
Defined.


(** * Further properties of the code *)

Import Client.

(** ** Text *)

Lemma string_app_empty (s : string) : s ++ "" = s.
Proof.
  induction s as [ | a s IH ]; simpl; [reflexivity | rewrite IH; reflexivity].
Qed.

Lemma before_avoids (c : ascii) (s rest : string) :
  avoids c s = true -> before c (s ++ rest) = s ++ before c rest.
Proof.
  induction s as [ | a s IH ]; simpl; intros H.
  - reflexivity.
  - apply andb_prop in H. destruct H as [Ha Hs].
    apply negb_true_iff in Ha. rewrite Ha, (IH Hs). reflexivity.
Qed.

Lemma before_whole (c : ascii) (s : string) : avoids c s = true -> before c s = s.
Proof.
  intros H. rewrite <- (string_app_empty s) at 1.
  rewrite (before_avoids c s "" H). simpl. apply string_app_empty.
Qed.

Lemma avoids_app (c : ascii) (a b : string) :
  avoids c (a ++ b) = avoids c a && avoids c b.
Proof.
  induction a as [ | x a IH ]; simpl.
  - reflexivity.
  - rewrite IH, andb_assoc. reflexivity.
Qed.

Lemma upper_ascii_idempotent (c : ascii) : upper_ascii (upper_ascii c) = upper_ascii c.
Proof.
  destruct c as [[|] [|] [|] [|] [|] [|] [|] [|]]; vm_compute; reflexivity.
Qed.

Lemma upper_idempotent (s : string) : upper (upper s) = upper s.
Proof.
  induction s as [ | a s IH ]; simpl.
  - reflexivity.
  - rewrite upper_ascii_idempotent, IH. reflexivity.
Qed.

(** ** More on [__fn_sign] *)

(** X1: what follows the first question mark of the url never reaches
    the signature: a url without question mark and the same url followed
    by a query string are signed alike. *)
Theorem fn_sign_ignores_query :
  forall (access_key_id secret_access_key url query : string) (content : pyval)
         (http_method content_type : string) (dt : Datetime.datetime),
    avoids "?" url = true ->
    fn_sign access_key_id secret_access_key (url ++ "?" ++ query) content
            http_method content_type dt
    = fn_sign access_key_id secret_access_key url content http_method content_type dt.
Proof.
  intros id sk url query content m ct dt Hurl.
  unfold fn_sign, raw_string.
  rewrite (before_avoids "?" url ("?" ++ query) Hurl).
  rewrite (before_whole "?" url Hurl).
  simpl before. rewrite string_app_empty. reflexivity.
Qed.

Lemma fn_sign_ignores_query_witness :
  fn_sign "K1" "S3cr3t" ("/show/1/sequence/2/revision/1" ++ "?" ++ "page=2&sort=asc")
          PNone "GET" "application/json" 63839664000000000
  = fn_sign "K1" "S3cr3t" "/show/1/sequence/2/revision/1"
            PNone "GET" "application/json" 63839664000000000.
Proof.
  apply fn_sign_ignores_query. reflexivity.
Defined.

(** X2: for a method written in ASCII the case of the letters is of no
    consequence: the method and its upper-case form are signed alike. *)
Theorem fn_sign_method_case :
  forall (access_key_id secret_access_key url : string) (content : pyval)
         (http_method content_type : string) (dt : Datetime.datetime),
    is_ascii http_method = true ->
    fn_sign access_key_id secret_access_key url content (upper http_method)
            content_type dt
    = fn_sign access_key_id secret_access_key url content http_method content_type dt.
Proof.
  intros id sk url content m ct dt _.
  unfold fn_sign, raw_string. rewrite upper_idempotent. reflexivity.
Qed.

Lemma fn_sign_method_case_witness :
  fn_sign "K1" "S3cr3t" "/show/1" PNone (upper "get") "application/json"
          63839664000000000
  = fn_sign "K1" "S3cr3t" "/show/1" PNone "get" "application/json"
            63839664000000000.
Proof.
  apply fn_sign_method_case. reflexivity.
Defined.

(** X3: a content that tests false (None, the empty text, empty bytes, an
    empty list or mapping, zero, False) is signed as no content at all,
    and then the content type plays no part. *)
Theorem fn_sign_falsy_content :
  forall (access_key_id secret_access_key url : string) (content : pyval)
         (http_method content_type other_type : string) (dt : Datetime.datetime),
    truthy content = false ->
    fn_sign access_key_id secret_access_key url content http_method content_type dt
    = fn_sign access_key_id secret_access_key url PNone http_method other_type dt.
Proof.
  intros id sk url content m ct ct' dt Hfalse.
  unfold fn_sign, raw_string, content_md5. rewrite Hfalse. reflexivity.
Qed.

Lemma fn_sign_falsy_content_witness :
  fn_sign "K1" "S3cr3t" "/show/1/sequence/2/revision" (PStr "") "POST"
          "application/json" 63839664000000000
  = fn_sign "K1" "S3cr3t" "/show/1/sequence/2/revision" PNone "POST"
            "text/plain" 63839664000000000.
Proof.
  apply fn_sign_falsy_content. reflexivity.
Defined.

(** X4: a text content that is not empty makes [__fn_sign] raise
    [TypeError], whatever the other arguments, the secret included. *)
Theorem fn_sign_text_content :
  forall (access_key_id secret_access_key url text : string)
         (http_method content_type : string) (dt : Datetime.datetime),
    text <> "" ->
    fn_sign access_key_id secret_access_key url (PStr text) http_method
            content_type dt
    = Raise TypeError.
Proof.
  intros id sk url text m ct dt Htext.
  unfold fn_sign, raw_string, content_md5, truthy.
  apply String.eqb_neq in Htext. rewrite Htext. reflexivity.
Qed.

Lemma fn_sign_text_content_witness :
  fn_sign "K1" "" "/show/1/sequence/2/revision" (PStr "{}") "POST"
          "application/json" 63839664000000000
  = Raise TypeError.
Proof.
  apply fn_sign_text_content. discriminate.
Defined.

(** ** The size of a signature *)

Lemma sha256_round_length (st : list Z) (kw : Z * Z) :
  List.length (SHA256.round st kw) = List.length st.
Proof.
  unfold SHA256.round.
  do 9 (destruct st as [ | ? st ]; try reflexivity).
Qed.

Lemma sha256_rounds_length (kws : list (Z * Z)) (st : list Z) :
  List.length (fold_left SHA256.round kws st) = List.length st.
Proof.
  revert st. induction kws as [ | kw kws IH ]; intros st; simpl.
  - reflexivity.
  - rewrite IH. apply sha256_round_length.
Qed.

Lemma sha256_compress_length (st block : list Z) :
  List.length (SHA256.compress st block) = List.length st.
Proof.
  unfold SHA256.compress.
  rewrite length_map, length_combine, sha256_rounds_length.
  apply Nat.min_id.
Qed.

Lemma sha256_state_length (blocks : list (list Z)) (st : list Z) :
  List.length (fold_left SHA256.compress blocks st) = List.length st.
Proof.
  revert st. induction blocks as [ | b blocks IH ]; intros st; simpl.
  - reflexivity.
  - rewrite IH. apply sha256_compress_length.
Qed.

Lemma be_bytes_words_length (ws : list Z) :
  List.length (flat_map (Octets.be_bytes 4) ws) = (4 * List.length ws)%nat.
Proof.
  induction ws as [ | w ws IH ].
  - reflexivity.
  - change (flat_map (Octets.be_bytes 4) (w :: ws))
      with (Octets.be_bytes 4 w ++ flat_map (Octets.be_bytes 4) ws)%list.
    rewrite length_app, IH. unfold Octets.be_bytes.
    rewrite length_rev. simpl. lia.
Qed.

(** A SHA-256 digest has thirty-two octets. *)
Lemma sha256_digest_length (msg : list Z) :
  List.length (SHA256.digest_octets msg) = 32%nat.
Proof.
  unfold SHA256.digest_octets.
  rewrite be_bytes_words_length, sha256_state_length. reflexivity.
Qed.

Lemma octets_of_to_string_length (l : list Z) :
  List.length (Octets.of_string (Octets.to_string l)) = List.length l.
Proof.
  induction l as [ | z l IH ]; simpl; [reflexivity | rewrite IH; reflexivity].
Qed.

Lemma encode_octets_length_32 (l : list Z) :
  List.length l = 32%nat ->
  String.length (Base64.encode_octets 33 l) = 44%nat.
Proof.
  intros H.
  do 32 (destruct l as [ | ? l ]; [discriminate H | ]).
  destruct l as [ | ? l ]; [ | discriminate H ].
  reflexivity.
Qed.

Lemma hmac_signature_length (k msg : string) :
  String.length (Base64.b64encode (HMAC.hmac_sha256 k msg)) = 44%nat.
Proof.
  unfold Base64.b64encode, HMAC.hmac_sha256, HMAC.digest_octets.
  rewrite octets_of_to_string_length, sha256_digest_length.
  apply encode_octets_length_32.
  rewrite octets_of_to_string_length. apply sha256_digest_length.
Qed.

(** X5: whenever [__fn_sign] returns, the value is "FNAUTH ", the access
    key id, a colon and a signature of exactly forty-four characters. *)
Theorem fn_sign_shape :
  forall (access_key_id secret_access_key url : string) (content : pyval)
         (http_method content_type : string) (dt : Datetime.datetime)
         (value : string),
    fn_sign access_key_id secret_access_key url content http_method content_type dt
    = Return value ->
    exists signature,
      value = "FNAUTH " ++ access_key_id ++ ":" ++ signature
      /\ String.length signature = 44%nat.
Proof.
  intros id sk url content m ct dt value H.
  unfold fn_sign in H.
  destruct (raw_string url content m ct dt) as [raw | e]; [ | discriminate H ].
  simpl in H.
  destruct (String.length sk =? 0)%nat; [discriminate H | ].
  injection H as H. subst value.
  eexists. split; [reflexivity | ].
  unfold decode_utf8. apply hmac_signature_length.
Qed.

Lemma fn_sign_shape_witness :
  exists signature,
    "FNAUTH K1:jajJv2NaIhDy22IiBDiykxKlLXtT3xucBU5djgS+S3o="
    = "FNAUTH " ++ "K1" ++ ":" ++ signature
    /\ String.length signature = 44%nat.
Proof.
  apply (fn_sign_shape "K1" "S3cr3t" "/show/1" PNone "GET" "application/json"
           63839689200000000).
  vm_compute. reflexivity.
Defined.

(** ** More on [authenticate] *)

(** X6: a response that decodes to an object without [id] makes
    [authenticate] raise [KeyError] after the hostname, the login and the
    password were replaced: the object then holds the new identity beside
    the key, the secret and the expiry it had. *)
Theorem authenticate_response_without_id :
  forall (net : network) (h l p : string) (st : flix) (d : list (string * pyval)),
    net (auth_url h) (basic_auth l p) = Body (Some (PDict d)) ->
    lookup "id" d = None ->
    authenticate net (PStr h) (PStr l) (PStr p) st
    = ({| hostname := PStr h; login := PStr l; password := PStr p;
          key := key st; secret := secret st; expiry := expiry st |},
       [Called_authenticate (PStr h) (PStr l) (PStr p);
        Posted (auth_url h) (basic_auth l p)],
       Raise KeyError).
Proof.
  intros net h l p st d Hnet Hid. unfold auth_url, basic_auth in *.
  run_method. rewrite Hnet, Hid. reflexivity.
Qed.

Lemma authenticate_response_without_id_witness :
  authenticate (Scenario.serving (PDict [("error", PStr "bad credentials")]))
    (PStr "https://other.example") (PStr "someone") (PStr "else")
    (Scenario.session Scenario.expiry_instant)
  = ({| hostname := PStr "https://other.example"; login := PStr "someone";
        password := PStr "else";
        key := PStr "K1"; secret := PStr "S3cr3t";
        expiry := Some Scenario.expiry_instant |},
     [Called_authenticate (PStr "https://other.example") (PStr "someone") (PStr "else");
      Posted (auth_url "https://other.example") (basic_auth "someone" "else")],
     Raise KeyError).
Proof.
  apply (authenticate_response_without_id
           (Scenario.serving (PDict [("error", PStr "bad credentials")]))
           "https://other.example" "someone" "else"
           (Scenario.session Scenario.expiry_instant)
           [("error", PStr "bad credentials")]); reflexivity.
Defined.

(** X7: a response whose body is not JSON makes [authenticate] raise
    [ValueError]: the exception is not caught, nothing is printed and the
    object is as before. *)
Theorem authenticate_undecodable_body :
  forall (net : network) (h l p : string) (st : flix),
    net (auth_url h) (basic_auth l p) = Body None ->
    authenticate net (PStr h) (PStr l) (PStr p) st
    = (st,
       [Called_authenticate (PStr h) (PStr l) (PStr p);
        Posted (auth_url h) (basic_auth l p)],
       Raise ValueError).
Proof.
  intros net h l p st Hnet. unfold auth_url, basic_auth in *.
  run_method. rewrite Hnet. reflexivity.
Qed.

Lemma authenticate_undecodable_body_witness :
  authenticate (fun _ _ => Body None) (PStr "https://flix.example") (PStr "artist")
    (PStr "pa55word") init
  = (init,
     [Called_authenticate (PStr "https://flix.example") (PStr "artist")
        (PStr "pa55word");
      Posted (auth_url "https://flix.example") (basic_auth "artist" "pa55word")],
     Raise ValueError).
Proof.
  apply (authenticate_undecodable_body (fun _ _ => Body None)
           "https://flix.example" "artist" "pa55word" init).
  reflexivity.
Defined.

(** X8: when the hostname, the login or the password is not a string,
    [authenticate] raises [TypeError] before any request is sent and
    leaves the object as it was. *)
Theorem authenticate_needs_strings :
  forall (net : network) (h l p : pyval) (st : flix),
    (forall s, h <> PStr s) \/ (forall s, l <> PStr s) \/ (forall s, p <> PStr s) ->
    authenticate net h l p st = (st, [Called_authenticate h l p], Raise TypeError).
Proof.
  intros net h l p st H.
  destruct l as [ | ? | ? | l | ? | ? | ? ]; try reflexivity.
  destruct p as [ | ? | ? | p | ? | ? | ? ]; try reflexivity.
  destruct h as [ | ? | ? | h | ? | ? | ? ]; try reflexivity.
  exfalso. destruct H as [H | [H | H]].
  - apply (H h). reflexivity.
  - apply (H l). reflexivity.
  - apply (H p). reflexivity.
Qed.

Lemma authenticate_needs_strings_witness :
  authenticate (Scenario.serving (Scenario.token "2024-01-01T10:00:00.5"))
    (PStr "https://flix.example") (PStr "artist") PNone init
  = (init,
     [Called_authenticate (PStr "https://flix.example") (PStr "artist") PNone],
     Raise TypeError).
Proof.
  apply authenticate_needs_strings.
  right. right. intros s H. discriminate H.
Defined.

(** ** More on [__get_token] *)

Lemma bind_assoc {A B C} (m : M A) (k : A -> M B) (k' : B -> M C) (st : flix) :
  bind (bind m k) k' st = bind m (fun a => bind (k a) k') st.
Proof.
  unfold bind. destruct (m st) as [[s1 e1] [a | x]]; [ | reflexivity ].
  destruct (k a s1) as [[s2 e2] [b | x]]; [ | reflexivity ].
  destruct (k' b s2) as [[s3 e3] r]. rewrite app_assoc. reflexivity.
Qed.

(** Runs the binds at the head of a computation as far as they are
    known. *)
Ltac run_binds :=
  repeat (first [ rewrite bind_assoc | rewrite bind_lift | rewrite bind_modify
                | rewrite bind_get | rewrite bind_ret ];
          cbv beta iota).

Lemma bind_returned {A B} (m : M A) (k : A -> M B) (st st1 : flix)
      (ev : list event) (a : A) :
  m st = (st1, ev, Return a) ->
  bind m k st = (let '(s2, e2, r) := k a st1 in (s2, (ev ++ e2)%list, r)).
Proof.
  intros H. unfold bind. rewrite H. reflexivity.
Qed.

Lemma bind_raised {A B} (m : M A) (k : A -> M B) (st st1 : flix)
      (ev : list event) (x : exn) :
  m st = (st1, ev, Raise x) ->
  bind m k st = (st1, ev, Raise x).
Proof.
  intros H. unfold bind. rewrite H. reflexivity.
Qed.

(** X9: on an object that was reset, and so on a new one, [__get_token]
    raises [TypeError] without sending a request: the identity it would
    authenticate with is absent. *)
Theorem get_token_after_reset :
  forall (net : network) (now : Datetime.datetime) (st : flix),
    state_of (reset st) = init
    /\ get_token net now (state_of (reset st))
       = (init, [Called_authenticate PNone PNone PNone], Raise TypeError).
Proof.
  intros net now st. split; reflexivity.
Qed.

Lemma cached_no_refresh (st : flix) (now : Datetime.datetime) (k sk : string) :
  cached st now k sk -> refresh_needed now st = Return false.
Proof.
  intros (Hk & Hs & E & He & Hrange & Hle).
  unfold refresh_needed, Datetime.add, Datetime.gt.
  rewrite Hk, Hs, He, Hrange. simpl.
  replace (E <? now + Datetime.hours 2)%Z with false; [reflexivity | ].
  symmetry. apply Z.ltb_ge. exact Hle.
Qed.

(** X10: when a refresh is due and the request fails, [__get_token]
    raises [TypeError], from subscripting the [None] that [authenticate]
    returned; the failure was printed and the object is as before. *)
Theorem get_token_refresh_fails :
  forall (net : network) (now : Datetime.datetime) (st : flix) (h l p err : string),
    hostname st = PStr h -> login st = PStr l -> password st = PStr p ->
    refresh_needed now st = Return true ->
    net (auth_url h) (basic_auth l p) = RequestException err ->
    get_token net now st
    = (st,
       [Called_authenticate (PStr h) (PStr l) (PStr p);
        Posted (auth_url h) (basic_auth l p);
        Printed ("Authentification failed " ++ err ++ LF)],
       Raise TypeError).
Proof.
  intros net now st h l p err Hh Hl Hp Hneed Hnet.
  unfold get_token. rewrite bind_get, bind_lift, Hneed.
  rewrite bind_run, bind_run, Hh, Hl, Hp.
  rewrite (authenticate_request_exception net h l p err st Hnet).
  reflexivity.
Qed.

Lemma get_token_refresh_fails_witness :
  get_token (Scenario.failing "503 Server Error") Cases.late
    (Scenario.session Scenario.expiry_instant)
  = (Scenario.session Scenario.expiry_instant,
     [Called_authenticate (PStr "https://flix.example") (PStr "artist")
        (PStr "pa55word");
      Posted (auth_url "https://flix.example") (basic_auth "artist" "pa55word");
      Printed ("Authentification failed " ++ "503 Server Error" ++ LF)],
     Raise TypeError).
Proof.
  apply (get_token_refresh_fails (Scenario.failing "503 Server Error") Cases.late
           (Scenario.session Scenario.expiry_instant)
           "https://flix.example" "artist" "pa55word" "503 Server Error");
    reflexivity.
Defined.

(** The run of a refresh that succeeds. *)
Lemma get_token_refresh_run :
  forall (net : network) (now : Datetime.datetime) (st : flix) (h l p : string)
         (d : list (string * pyval)) (i sk : pyval) (e : string)
         (t : Datetime.datetime),
    hostname st = PStr h -> login st = PStr l -> password st = PStr p ->
    refresh_needed now st = Return true ->
    net (auth_url h) (basic_auth l p) = Body (Some (PDict d)) ->
    lookup "id" d = Some i ->
    lookup "secret_access_key" d = Some sk ->
    lookup "expiry_date" d = Some (PStr e) ->
    Datetime.strptime (before "." e) = Some t ->
    get_token net now st
    = ({| hostname := PStr h; login := PStr l; password := PStr p;
          key := i; secret := sk; expiry := Some t |},
       [Called_authenticate (PStr h) (PStr l) (PStr p);
        Posted (auth_url h) (basic_auth l p)],
       Return (i, sk)).
Proof.
  intros net now st h l p d i sk e t Hh Hl Hp Hneed Hnet Hi Hsk He Ht.
  unfold get_token. rewrite bind_get, bind_lift, Hneed.
  rewrite !bind_assoc, Hh, Hl, Hp.
  rewrite (bind_returned _ _ _ _ _ _
             (authenticate_token net h l p st d i sk e t Hnet Hi Hsk He Ht)).
  cbv beta. unfold getitem, split_dot_head, strptime. rewrite Hi, Hsk, He.
  run_binds. rewrite Ht. run_binds.
  reflexivity.
Qed.

(** X11: when a refresh is due and the response carries a token,
    [__get_token] sends one request, stores the new key, secret and
    expiry and returns the new pair. *)
Theorem get_token_refresh_succeeds :
  forall (net : network) (now : Datetime.datetime) (st : flix) (h l p : string)
         (d : list (string * pyval)) (i sk : pyval) (e : string)
         (t : Datetime.datetime),
    hostname st = PStr h -> login st = PStr l -> password st = PStr p ->
    refresh_needed now st = Return true ->
    net (auth_url h) (basic_auth l p) = Body (Some (PDict d)) ->
    lookup "id" d = Some i ->
    lookup "secret_access_key" d = Some sk ->
    lookup "expiry_date" d = Some (PStr e) ->
    Datetime.strptime (before "." e) = Some t ->
    get_token net now st
    = ({| hostname := PStr h; login := PStr l; password := PStr p;
          key := i; secret := sk; expiry := Some t |},
       [Called_authenticate (PStr h) (PStr l) (PStr p);
        Posted (auth_url h) (basic_auth l p)],
       Return (i, sk)).
Proof.
  intros net now st h l p d i sk e t.
  apply get_token_refresh_run.
Qed.

Lemma get_token_refresh_succeeds_witness :
  get_token (Scenario.serving (Scenario.token "2024-01-02T10:00:00.25")) Cases.late
    (Scenario.session Scenario.expiry_instant)
  = ({| hostname := PStr "https://flix.example"; login := PStr "artist";
        password := PStr "pa55word";
        key := PStr "K1"; secret := PStr "S3cr3t";
        expiry := Some (Scenario.expiry_instant + Datetime.hours 24)%Z |},
     [Called_authenticate (PStr "https://flix.example") (PStr "artist")
        (PStr "pa55word");
      Posted (auth_url "https://flix.example") (basic_auth "artist" "pa55word")],
     Return (PStr "K1", PStr "S3cr3t")).
Proof.
  apply (get_token_refresh_succeeds
           (Scenario.serving (Scenario.token "2024-01-02T10:00:00.25")) Cases.late
           (Scenario.session Scenario.expiry_instant)
           "https://flix.example" "artist" "pa55word"
           [("id", PStr "K1"); ("secret_access_key", PStr "S3cr3t");
            ("expiry_date", PStr "2024-01-02T10:00:00.25")]
           (PStr "K1") (PStr "S3cr3t") "2024-01-02T10:00:00.25");
    reflexivity.
Defined.

(** X12: the pair stored by a successful [authenticate] is the pair a
    later [__get_token] returns, with no request and no change to the
    object, as long as the clock is at least two hours short of the
    expiry the response announced. *)
Theorem authenticate_then_get_token :
  forall (net later_net : network) (h l p : string) (st : flix)
         (d : list (string * pyval)) (i sk : pyval) (e : string)
         (t now : Datetime.datetime),
    net (auth_url h) (basic_auth l p) = Body (Some (PDict d)) ->
    lookup "id" d = Some i ->
    lookup "secret_access_key" d = Some sk ->
    lookup "expiry_date" d = Some (PStr e) ->
    Datetime.strptime (before "." e) = Some t ->
    i <> PNone -> sk <> PNone ->
    Datetime.in_range (now + Datetime.hours 2) = true ->
    (now + Datetime.hours 2 <= t)%Z ->
    let st1 := state_of (authenticate net (PStr h) (PStr l) (PStr p) st) in
    get_token later_net now st1 = (st1, [], Return (i, sk)).
Proof.
  intros net net' h l p st d i sk e t now Hnet Hi Hsk He Ht Hni Hnsk Hrange Hle st1.
  subst st1.
  rewrite (authenticate_token net h l p st d i sk e t Hnet Hi Hsk He Ht).
  cbv [state_of fst].
  apply get_token_cached.
  rewrite (refresh_needed_in_range _ _ Hrange). simpl.
  apply is_none_false in Hni, Hnsk. rewrite Hni, Hnsk. simpl.
  replace (t <? now + Datetime.hours 2)%Z with false; [reflexivity | ].
  symmetry. apply Z.ltb_ge. exact Hle.
Qed.

Lemma authenticate_then_get_token_witness :
  get_token (Scenario.failing "unreachable") Cases.early
    (state_of (authenticate
                 (Scenario.serving (Scenario.token "2024-01-01T10:00:00.123456"))
                 (PStr "https://flix.example") (PStr "artist") (PStr "pa55word") init))
  = (state_of (authenticate
                 (Scenario.serving (Scenario.token "2024-01-01T10:00:00.123456"))
                 (PStr "https://flix.example") (PStr "artist") (PStr "pa55word") init),
     [], Return (PStr "K1", PStr "S3cr3t")).
Proof.
  apply (authenticate_then_get_token
           (Scenario.serving (Scenario.token "2024-01-01T10:00:00.123456"))
           (Scenario.failing "unreachable")
           "https://flix.example" "artist" "pa55word" init
           [("id", PStr "K1"); ("secret_access_key", PStr "S3cr3t");
            ("expiry_date", PStr "2024-01-01T10:00:00.123456")]
           (PStr "K1") (PStr "S3cr3t") "2024-01-01T10:00:00.123456"
           Scenario.expiry_instant Cases.early);
    try reflexivity; try discriminate.
Defined.

(** ** [__get_headers] *)

Lemma fn_sign_py_strings (id sk url : string) (content : pyval)
      (m ct : string) (dt : Datetime.datetime) :
  fn_sign_py (PStr id) (PStr sk) url content m ct dt
  = fn_sign id sk url content m ct dt.
Proof.
  unfold fn_sign_py, fn_sign.
  destruct (raw_string url content m ct dt) as [raw | x]; [ | reflexivity ].
  destruct sk; reflexivity.
Qed.

Lemma get_headers_cached_run (net : network) (now utcnow : Datetime.datetime)
      (content : pyval) (url m : string) (st : flix) (k sk : string) :
  cached st now k sk ->
  get_headers net now utcnow content url m st
  = match fn_sign k sk url content m "application/json" utcnow with
    | Return authorization =>
        (st, [],
         Return [("Authorization", authorization);
                 ("Content-Type", "application/json");
                 ("Date", Calendar.http_date utcnow)])
    | Raise x => (st, [], Raise x)
    end.
Proof.
  intros Hc. pose proof (cached_no_refresh st now k sk Hc) as Hneed.
  destruct Hc as (Hk & Hs & _).
  unfold get_headers.
  rewrite (bind_returned _ _ _ _ _ _ (get_token_cached net now st Hneed)).
  cbv beta. cbv [fst snd]. rewrite Hk, Hs, fn_sign_py_strings.
  rewrite bind_lift.
  destruct (fn_sign k sk url content m "application/json" utcnow) as [a | x].
  - reflexivity.
  - reflexivity.
Qed.

(** The headers returned from the store. *)
Lemma get_headers_signed (net : network) (now utcnow : Datetime.datetime)
      (content : pyval) (url method : string) (st : flix) (k sk raw : string) :
  cached st now k sk ->
  sk <> "" ->
  raw_string url content method "application/json" utcnow = Return raw ->
  get_headers net now utcnow content url method st
  = (st, [],
     Return [("Authorization",
              "FNAUTH " ++ k ++ ":"
              ++ Base64.b64encode (HMAC.hmac_sha256 (encode_utf8 sk) (encode_utf8 raw)));
             ("Content-Type", "application/json");
             ("Date", Calendar.http_date utcnow)]).
Proof.
  intros Hc Hsk Hraw.
  rewrite (get_headers_cached_run net now utcnow content url method st k sk Hc).
  unfold fn_sign. rewrite Hraw. simpl obind.
  destruct sk as [ | a sk ]; [contradiction | reflexivity].
Qed.

(** X13: with a token in store and outside the margin, [__get_headers]
    sends nothing and changes nothing; it returns the Authorization made
    of "FNAUTH ", the stored key, a colon and the signature of the
    canonical string under the stored secret, then the JSON content type
    and the date of the instant that was signed. *)
Theorem get_headers_cached :
  forall (net : network) (now utcnow : Datetime.datetime) (content : pyval)
         (url method : string) (st : flix) (k sk raw : string),
    cached st now k sk ->
    sk <> "" ->
    raw_string url content method "application/json" utcnow = Return raw ->
    get_headers net now utcnow content url method st
    = (st, [],
       Return [("Authorization",
                "FNAUTH " ++ k ++ ":"
                ++ Base64.b64encode (HMAC.hmac_sha256 (encode_utf8 sk) (encode_utf8 raw)));
               ("Content-Type", "application/json");
               ("Date", Calendar.http_date utcnow)]).
Proof.
  intros net now utcnow content url m st k sk raw.
  apply get_headers_signed.
Qed.

Lemma get_headers_cached_witness :
  get_headers (Scenario.failing "unreachable") Cases.early 63839689200000000
    PNone "/show/1/sequence/2/revision/1" "GET"
    (Scenario.session Scenario.expiry_instant)
  = (Scenario.session Scenario.expiry_instant, [],
     Return [("Authorization",
              "FNAUTH " ++ "K1" ++ ":"
              ++ Base64.b64encode
                   (HMAC.hmac_sha256 (encode_utf8 "S3cr3t")
                      (encode_utf8
                         ("GET" ++ LF ++ LF ++ LF ++ "2024-01-01T07:00:00Z" ++ LF
                          ++ "/show/1/sequence/2/revision/1"))));
             ("Content-Type", "application/json");
             ("Date", Calendar.http_date 63839689200000000)]).
Proof.
  apply get_headers_cached.
  - repeat split. exists Scenario.expiry_instant.
    repeat split. vm_compute. discriminate.
  - discriminate.
  - vm_compute. reflexivity.
Defined.

(** X14: a stored secret that is the empty string makes [__get_headers]
    raise [ValueError] once the canonical string is built; no header is
    returned. *)
Theorem get_headers_empty_secret :
  forall (net : network) (now utcnow : Datetime.datetime) (content : pyval)
         (url method : string) (st : flix) (k raw : string),
    cached st now k "" ->
    raw_string url content method "application/json" utcnow = Return raw ->
    get_headers net now utcnow content url method st = (st, [], Raise ValueError).
Proof.
  intros net now utcnow content url m st k raw Hc Hraw.
  rewrite (get_headers_cached_run net now utcnow content url m st k "" Hc).
  unfold fn_sign. rewrite Hraw. reflexivity.
Qed.

Lemma get_headers_empty_secret_witness :
  get_headers (Scenario.failing "unreachable") Cases.early 63839689200000000
    PNone "/show/1" "GET"
    {| hostname := Scenario.host; login := Scenario.user; password := Scenario.pass;
       key := PStr "K1"; secret := PStr ""; expiry := Some Scenario.expiry_instant |}
  = ({| hostname := Scenario.host; login := Scenario.user; password := Scenario.pass;
        key := PStr "K1"; secret := PStr "";
        expiry := Some Scenario.expiry_instant |},
     [], Raise ValueError).
Proof.
  apply (get_headers_empty_secret (Scenario.failing "unreachable") Cases.early
           63839689200000000 PNone "/show/1" "GET" _ "K1"
           ("GET" ++ LF ++ LF ++ LF ++ "2024-01-01T07:00:00Z" ++ LF ++ "/show/1")).
  - repeat split. exists Scenario.expiry_instant.
    repeat split. vm_compute. discriminate.
  - vm_compute. reflexivity.
Defined.

(** ** The retrieval methods *)

Lemma numeric_chars (c : ascii) :
  numeric c = false ->
  Ascii.eqb "0" c = false /\ Ascii.eqb "1" c = false /\ Ascii.eqb "2" c = false
  /\ Ascii.eqb "3" c = false /\ Ascii.eqb "4" c = false /\ Ascii.eqb "5" c = false
  /\ Ascii.eqb "6" c = false /\ Ascii.eqb "7" c = false /\ Ascii.eqb "8" c = false
  /\ Ascii.eqb "9" c = false /\ Ascii.eqb "-" c = false.
Proof.
  destruct c as [[|] [|] [|] [|] [|] [|] [|] [|]]; intros H;
    try discriminate H; repeat split; reflexivity.
Qed.

Lemma avoids_uint (c : ascii) (d : Decimal.uint) :
  numeric c = false -> avoids c (NilEmpty.string_of_uint d) = true.
Proof.
  intros H.
  destruct (numeric_chars c H) as (H0 & H1 & H2 & H3 & H4 & H5 & H6 & H7 & H8 & H9 & _).
  induction d as [ | d IH | d IH | d IH | d IH | d IH | d IH | d IH | d IH | d IH | d IH ];
    cbn [NilEmpty.string_of_uint avoids];
    rewrite ?H0, ?H1, ?H2, ?H3, ?H4, ?H5, ?H6, ?H7, ?H8, ?H9;
    try rewrite IH; reflexivity.
Qed.

(** What [str] prints for an integer has digits and a sign only. *)
Lemma avoids_str_of_int (c : ascii) (n : Z) :
  numeric c = false -> avoids c (str_of_int n) = true.
Proof.
  intros H. unfold str_of_int, NilZero.string_of_int.
  assert (Hu : forall d, avoids c (NilZero.string_of_uint d) = true).
  { intros d. unfold NilZero.string_of_uint.
    destruct d; try apply (avoids_uint c _ H).
    cbn [avoids]. destruct (numeric_chars c H) as (H0 & _). rewrite H0. reflexivity. }
  destruct (Z.to_int n) as [d | d].
  - apply Hu.
  - cbn [avoids].
    destruct (numeric_chars c H) as (_ & _ & _ & _ & _ & _ & _ & _ & _ & _ & Hm).
    rewrite Hm. apply Hu.
Qed.

Lemma avoids_show_url (show_id seq_id : Z) (episode_id : option Z) (tail : string) :
  avoids "?" tail = true ->
  avoids "?" (show_url show_id episode_id seq_id tail) = true.
Proof.
  intros Htail. unfold show_url.
  destruct episode_id as [ep | ];
    repeat (rewrite avoids_app);
    rewrite ?avoids_str_of_int, ?Htail by reflexivity; reflexivity.
Qed.

Lemma raw_string_get (url ct : string) (dt : Datetime.datetime) :
  avoids "?" url = true ->
  raw_string url PNone "GET" ct dt
  = Return ("GET" ++ LF ++ LF ++ LF
            ++ before "." (Datetime.isoformat dt) ++ "Z" ++ LF ++ url).
Proof.
  intros Hurl. unfold raw_string, content_md5, truthy, obind.
  change (negb ("" =? "")) with false. cbv iota.
  rewrite (before_whole "?" url Hurl).
  rewrite !string_app_assoc. reflexivity.
Qed.

(** A ready object signs its GET locally and then hands the request to
    the network. *)
Lemma fetch_ready (e : env) (st : flix) (k sk h url : string) (field : option string) :
  ready e st k sk h ->
  avoids "?" url = true ->
  fetch e url field st
  = let hdr := signed_get k sk url (clock_utcnow e) in
    let ev := [Got (h ++ url) hdr] in
    match get_net e (h ++ url) hdr with
    | Failed err => (st, ev, inr UnboundLocalError)
    | Answered _ None => (st, ev, inr (Exn ValueError))
    | Answered _ (Some decoded) =>
        match field with
        | None => (st, ev, inl decoded)
        | Some f =>
            match dict_get decoded f with
            | Return v => (st, ev, inl v)
            | Raise x => (st, ev, inr (Exn x))
            end
        end
    end.
Proof.
  intros (Hc & Hsk & Hh) Hurl. unfold fetch.
  rewrite (get_headers_signed _ _ _ _ _ _ _ _ _ _ Hc Hsk
             (raw_string_get url "application/json" (clock_utcnow e) Hurl)).
  rewrite Hh. cbv [str_add]. cbv zeta. fold (signed_get k sk url (clock_utcnow e)).
  destruct (get_net e (h ++ url) (signed_get k sk url (clock_utcnow e)))
    as [err | status [decoded | ]]; try reflexivity.
Qed.

Lemma avoids_tail_revision (n : Z) (suffix : string) :
  avoids "?" suffix = true ->
  avoids "?" ("/revision/" ++ str_of_int n ++ suffix) = true.
Proof.
  intros H. rewrite !avoids_app, avoids_str_of_int, H by reflexivity. reflexivity.
Qed.

Lemma avoids_tail_panel (n : Z) :
  avoids "?" ("/panel/" ++ str_of_int n ++ "/dialogues") = true.
Proof.
  rewrite !avoids_app, avoids_str_of_int by reflexivity. reflexivity.
Qed.

Lemma avoids_tail_id (n : Z) : avoids "?" ("/revision/" ++ str_of_int n) = true.
Proof.
  rewrite !avoids_app, avoids_str_of_int by reflexivity. reflexivity.
Qed.

(** X15: when [requests.get] fails, each of the four retrieval methods
    raises [UnboundLocalError]: the handler reads the response that was
    never bound.  Neither of its two messages is printed, no [None] is
    returned, and the object is as before. *)
Theorem retrieval_transport_failure :
  forall (e : env) (st : flix) (k sk h err : string)
         (show_id seq_id : Z) (episode_id : option Z) (n : Z),
    ready e st k sk h ->
    (forall u hd, get_net e u hd = Failed err) ->
    Forall (fun r => value_of r = inr UnboundLocalError
                     /\ object_of r = st
                     /\ existsb is_print (io_of r) = false)
           [get_sequence_revision_by_id e show_id seq_id episode_id n st;
            get_sequence_revision_panels e show_id seq_id episode_id n st;
            get_revision_dialogues e show_id seq_id episode_id n st;
            get_panel_dialogues e show_id seq_id episode_id n st].
Proof.
  intros e st k sk h err show_id seq_id episode_id n Hready Hnet.
  assert (Hfetch : forall url field,
             avoids "?" url = true ->
             value_of (fetch e url field st) = inr UnboundLocalError
             /\ object_of (fetch e url field st) = st
             /\ existsb is_print (io_of (fetch e url field st)) = false).
  { intros url field Hurl.
    rewrite (fetch_ready e st k sk h url field Hready Hurl).
    cbv zeta. rewrite Hnet. repeat split. }
  unfold get_sequence_revision_by_id, get_sequence_revision_panels,
    get_revision_dialogues, get_panel_dialogues.
  constructor; [ | constructor; [ | constructor; [ | constructor; [ | constructor ]]]];
    apply Hfetch; apply avoids_show_url.
  - apply avoids_tail_id.
  - apply avoids_tail_revision. reflexivity.
  - apply avoids_tail_revision. reflexivity.
  - apply avoids_tail_panel.
Qed.

Lemma retrieval_transport_failure_witness :
  value_of (get_revision_dialogues
              (Cases.world (Scenario.failing "unreachable") Cases.unreachable
                 Cases.early Cases.early)
              1 2 (Some 7%Z) 3 (Scenario.session Scenario.expiry_instant))
  = inr UnboundLocalError.
Proof.
  pose proof (retrieval_transport_failure
                (Cases.world (Scenario.failing "unreachable") Cases.unreachable
                   Cases.early Cases.early)
                (Scenario.session Scenario.expiry_instant)
                "K1" "S3cr3t" "https://flix.example" "Connection refused"
                1 2 (Some 7%Z) 3) as H.
  assert (Hready : ready (Cases.world (Scenario.failing "unreachable") Cases.unreachable
                            Cases.early Cases.early)
                         (Scenario.session Scenario.expiry_instant)
                         "K1" "S3cr3t" "https://flix.example").
  { repeat split; try discriminate. exists Scenario.expiry_instant.
    repeat split. vm_compute. discriminate. }
  specialize (H Hready (fun _ _ => eq_refl)).
  apply Forall_inv_tail in H. apply Forall_inv_tail in H. apply Forall_inv in H.
  exact (proj1 H).
Defined.

(** X16: a retrieval method does not look at the status of the response:
    whatever the status, 401 included, [get_sequence_revision_by_id]
    returns the decoded body.  The request it sends goes to the hostname
    followed by the path and carries the headers of a GET of that path
    without content, signed at the UTC clock; the object is unchanged. *)
Theorem get_sequence_revision_by_id_any_status :
  forall (e : env) (st : flix) (k sk h : string)
         (show_id seq_id : Z) (episode_id : option Z) (revision_id : Z)
         (status_code : Z) (decoded : pyval),
    ready e st k sk h ->
    let path := show_url show_id episode_id seq_id
                  ("/revision/" ++ str_of_int revision_id) in
    let hdr := signed_get k sk path (clock_utcnow e) in
    get_net e (h ++ path) hdr = Answered status_code (Some decoded) ->
    get_sequence_revision_by_id e show_id seq_id episode_id revision_id st
    = (st, [Got (h ++ path) hdr], inl decoded).
Proof.
  intros e st k sk h show_id seq_id episode_id revision_id status decoded
    Hready path hdr Hnet.
  unfold get_sequence_revision_by_id. fold path.
  rewrite (fetch_ready e st k sk h path None Hready)
    by (apply avoids_show_url; apply avoids_tail_id).
  cbv zeta. fold hdr. rewrite Hnet. reflexivity.
Qed.

Lemma get_sequence_revision_by_id_any_status_witness :
  value_of (get_sequence_revision_by_id
              (Cases.world (Scenario.failing "unreachable")
                 (Cases.answering 401 (PDict [("message", PStr "token revoked")]))
                 Cases.early Cases.early)
              1 2 None 3 (Scenario.session Scenario.expiry_instant))
  = inl (PDict [("message", PStr "token revoked")]).
Proof.
  rewrite (get_sequence_revision_by_id_any_status
             (Cases.world (Scenario.failing "unreachable")
                (Cases.answering 401 (PDict [("message", PStr "token revoked")]))
                Cases.early Cases.early)
             (Scenario.session Scenario.expiry_instant)
             "K1" "S3cr3t" "https://flix.example" 1 2 None 3 401
             (PDict [("message", PStr "token revoked")])).
  - reflexivity.
  - repeat split; try discriminate. exists Scenario.expiry_instant.
    repeat split. vm_compute. discriminate.
  - reflexivity.
Defined.

(** X17: the methods that extract a field return [None] when the decoded
    object lacks it and raise [AttributeError] when the body decodes to
    something that is not an object: [panels] for
    [get_sequence_revision_panels], [dialogues] for
    [get_revision_dialogues] and [get_panel_dialogues]. *)
Theorem retrieval_field :
  forall (e : env) (st : flix) (k sk h : string)
         (show_id seq_id : Z) (episode_id : option Z) (n : Z)
         (status_code : Z) (decoded : pyval),
    ready e st k sk h ->
    (forall u hd, get_net e u hd = Answered status_code (Some decoded)) ->
    let extracted (field : string) : pyval + raised :=
      if is_dict decoded then inl (get_or_none decoded field)
      else inr (Exn AttributeError) in
    value_of (get_sequence_revision_panels e show_id seq_id episode_id n st)
    = extracted "panels"
    /\ value_of (get_revision_dialogues e show_id seq_id episode_id n st)
       = extracted "dialogues"
    /\ value_of (get_panel_dialogues e show_id seq_id episode_id n st)
       = extracted "dialogues".
Proof.
  intros e st k sk h show_id seq_id episode_id n status decoded Hready Hnet extracted.
  assert (Hfetch : forall url field,
             avoids "?" url = true ->
             value_of (fetch e url (Some field) st) = extracted field).
  { intros url field Hurl.
    rewrite (fetch_ready e st k sk h url (Some field) Hready Hurl).
    cbv zeta. rewrite Hnet. subst extracted. cbv beta.
    destruct decoded as [ | ? | ? | ? | ? | ? | d ]; try reflexivity.
    unfold dict_get, get_or_none, is_dict.
    destruct (lookup field d); reflexivity. }
  unfold get_sequence_revision_panels, get_revision_dialogues, get_panel_dialogues.
  repeat split; apply Hfetch; apply avoids_show_url.
  - apply avoids_tail_revision. reflexivity.
  - apply avoids_tail_revision. reflexivity.
  - apply avoids_tail_panel.
Qed.

Lemma retrieval_field_witness :
  value_of (get_sequence_revision_panels
              (Cases.world (Scenario.failing "unreachable")
                 (Cases.answering 200 (PDict [("id", PInt 3)]))
                 Cases.early Cases.early)
              1 2 None 3 (Scenario.session Scenario.expiry_instant))
  = inl PNone.
Proof.
  refine (proj1 (retrieval_field
             (Cases.world (Scenario.failing "unreachable")
                (Cases.answering 200 (PDict [("id", PInt 3)]))
                Cases.early Cases.early)
             (Scenario.session Scenario.expiry_instant)
             "K1" "S3cr3t" "https://flix.example" 1 2 None 3 200
             (PDict [("id", PInt 3)]) _ (fun _ _ => eq_refl))).
  repeat split; try discriminate. exists Scenario.expiry_instant.
  repeat split. vm_compute. discriminate.
Defined.

(** X18: on an object that was reset, and so on a new one, the four
    retrieval methods raise [TypeError] while asking for a token: no GET
    is sent. *)
Theorem retrieval_after_reset :
  forall (e : env) (st : flix) (show_id seq_id : Z) (episode_id : option Z) (n : Z),
    Forall (fun r => r = (init, [Core (Called_authenticate PNone PNone PNone)],
                          inr (Exn TypeError)))
           [get_sequence_revision_by_id e show_id seq_id episode_id n (state_of (reset st));
            get_sequence_revision_panels e show_id seq_id episode_id n (state_of (reset st));
            get_revision_dialogues e show_id seq_id episode_id n (state_of (reset st));
            get_panel_dialogues e show_id seq_id episode_id n (state_of (reset st))].
Proof.
  intros e st show_id seq_id episode_id n.
  repeat (apply Forall_cons; [reflexivity | ]). apply Forall_nil.
Qed.

(** ** [format_panel_for_revision] *)

Lemma revisioned_dict (dialogue : pyval) (d : list (string * pyval)) :
  revisioned dialogue (PDict d)
  = Return (PDict [("dialogue", dialogue);
                   ("duration", get_or_none (PDict d) "duration");
                   ("id", get_or_none (PDict d) "panel_id");
                   ("revision_number", get_or_none (PDict d) "revision_number")]).
Proof.
  unfold revisioned, dict_get, get_or_none.
  destruct (lookup "duration" d); destruct (lookup "panel_id" d);
    destruct (lookup "revision_number" d); reflexivity.
Qed.

Lemma revisioned_other (dialogue p : pyval) :
  is_dict p = false -> revisioned dialogue p = Raise AttributeError.
Proof.
  destruct p; intros H; try reflexivity. discriminate H.
Qed.

(** X19: on a list of panels, [format_panel_for_revision] is all or
    nothing.  When every panel is a dictionary it returns one dictionary
    per panel, in the same order, with the four keys dialogue, duration,
    id and revision_number: the dialogue given, and the panel's duration,
    panel_id and revision_number, [None] standing for a key the panel
    lacks; the other keys of the panel are dropped.  When one panel is
    not a dictionary it raises [AttributeError]. *)
Theorem format_panel_for_revision_list :
  forall (panels : list pyval) (dialogue : pyval),
    format_panel_for_revision (PList panels) dialogue
    = if forallb is_dict panels
      then Return (PList (map (fun p =>
                                 PDict [("dialogue", dialogue);
                                        ("duration", get_or_none p "duration");
                                        ("id", get_or_none p "panel_id");
                                        ("revision_number",
                                         get_or_none p "revision_number")])
                              panels))
      else Raise AttributeError.
Proof.
  intros panels dialogue. unfold format_panel_for_revision, iterate. simpl obind.
  assert (H : revisioned_each dialogue panels
              = if forallb is_dict panels
                then Return (map (fun p =>
                                    PDict [("dialogue", dialogue);
                                           ("duration", get_or_none p "duration");
                                           ("id", get_or_none p "panel_id");
                                           ("revision_number",
                                            get_or_none p "revision_number")])
                                 panels)
                else Raise AttributeError).
  { induction panels as [ | p panels IH ].
    - reflexivity.
    - cbn [revisioned_each forallb map].
      destruct (is_dict p) eqn:Hp.
      + destruct p; try discriminate Hp.
        rewrite revisioned_dict, IH. cbn [obind andb].
        destruct (forallb is_dict panels); reflexivity.
      + rewrite (revisioned_other dialogue p Hp). reflexivity. }
  rewrite H. destruct (forallb is_dict panels); reflexivity.
Qed.

(** ** [create_new_sequence_revision] *)

Lemma no_urlopen_in_core (ev : list event) :
  existsb is_urlopen (map Core ev) = false.
Proof.
  induction ev as [ | x ev IH ]; [reflexivity | exact IH].
Qed.

(** X20: [create_new_sequence_revision] never returns a value and never
    opens the url: every call ends in an exception, after the url was
    printed.  It hands [json.dumps] the url-encoded bytes, which
    [json.dumps] refuses. *)
Theorem create_new_sequence_revision_never_posts :
  forall (e : env) (show_id sequence_id : Z)
         (revisioned_panels revision comment : pyval) (st : flix),
    let r := create_new_sequence_revision e show_id sequence_id revisioned_panels
               revision comment st in
    (exists x, value_of r = inr x)
    /\ existsb is_urlopen (io_of r) = false
    /\ (exists tl, io_of r
                   = Core (Printed (revision_url show_id sequence_id ++ LF)) :: tl).
Proof.
  intros e show_id sequence_id panels revision comment st r. subst r.
  unfold create_new_sequence_revision. fold (revision_url show_id sequence_id).
  destruct (revision_content panels revision comment) as [content | x].
  2:{ repeat split; eexists; reflexivity. }
  destruct (urlencode e content) as [encoded | x].
  2:{ repeat split; eexists; reflexivity. }
  destruct (get_headers _ _ _ _ _ _ st) as [[st1 ev] [hdr | x]].
  - destruct (str_add (hostname st1) (PStr (revision_url show_id sequence_id)))
      as [target | x]; cbn [Json.dumps];
      (split; [eexists; reflexivity | ]);
      (split; [apply no_urlopen_in_core | eexists; reflexivity]).
  - split; [eexists; reflexivity | ].
    split; [apply no_urlopen_in_core | eexists; reflexivity].
Qed.

(** X21: on an object ready for signed requests, with a revision whose
    content can be built and url-encoded, [create_new_sequence_revision]
    gets a token from the store, signs the request and then raises
    [TypeError]; it has printed the url, sent nothing and changed
    nothing. *)
Theorem create_new_sequence_revision_type_error :
  forall (e : env) (st : flix) (k sk h : string) (show_id sequence_id : Z)
         (revisioned_panels revision comment content : pyval) (encoded : string),
    ready e st k sk h ->
    revision_content revisioned_panels revision comment = Return content ->
    urlencode e content = Return encoded ->
    create_new_sequence_revision e show_id sequence_id revisioned_panels revision
      comment st
    = (st, [Core (Printed (revision_url show_id sequence_id ++ LF))],
       inr (Exn TypeError)).
Proof.
  intros e st k sk h show_id sequence_id panels revision comment content encoded
    (Hc & Hsk & Hh) Hcontent Hencoded.
  unfold create_new_sequence_revision. fold (revision_url show_id sequence_id).
  rewrite Hcontent, Hencoded.
  destruct (raw_string_built (revision_url show_id sequence_id)
              (PBytes (encode_utf8 encoded)) "POST" "application/json"
              (clock_utcnow e) _ (content_md5_bytes (encode_utf8 encoded)))
    as [raw Hraw].
  rewrite (get_headers_signed _ _ _ _ _ _ _ _ _ _ Hc Hsk Hraw).
  rewrite Hh. reflexivity.
Qed.

Lemma create_new_sequence_revision_type_error_witness :
  create_new_sequence_revision
    (Cases.world (Scenario.failing "unreachable") Cases.unreachable
       Cases.early Cases.early)
    1 2 (PList []) Cases.revision default_comment
    (Scenario.session Scenario.expiry_instant)
  = (Scenario.session Scenario.expiry_instant,
     [Core (Printed (revision_url 1 2 ++ LF))], inr (Exn TypeError)).
Proof.
  apply (create_new_sequence_revision_type_error
           (Cases.world (Scenario.failing "unreachable") Cases.unreachable
              Cases.early Cases.early)
           (Scenario.session Scenario.expiry_instant)
           "K1" "S3cr3t" "https://flix.example" 1 2 (PList []) Cases.revision
           default_comment
           (PDict [("comment", default_comment);
                   ("imported", PBool false);
                   ("meta_data",
                    PDict [("movie_asset_id", PInt 0);
                           ("audio_asset_id", PInt 0);
                           ("annotations", PNone);
                           ("audio_timings", PNone);
                           ("highlights", PNone);
                           ("markers", PList [])]);
                   ("revisioned_panels", PList [])])
           "comment=x").
  - repeat split; try discriminate. exists Scenario.expiry_instant.
    repeat split. vm_compute. discriminate.
  - reflexivity.
  - reflexivity.
Defined.

(** X22: a revision that is a dictionary without [meta_data] makes
    [create_new_sequence_revision] raise [AttributeError] right after
    printing the url: [revision.get] gives [None], which has no [get];
    no token is asked for and nothing is sent. *)
Theorem create_new_sequence_revision_without_meta_data :
  forall (e : env) (st : flix) (show_id sequence_id : Z)
         (revisioned_panels comment : pyval) (d : list (string * pyval)),
    lookup "meta_data" d = None ->
    create_new_sequence_revision e show_id sequence_id revisioned_panels (PDict d)
      comment st
    = (st, [Core (Printed (revision_url show_id sequence_id ++ LF))],
       inr (Exn AttributeError)).
Proof.
  intros e st show_id sequence_id panels comment d Hd.
  unfold create_new_sequence_revision, revision_content, dict_get.
  rewrite Hd. reflexivity.
Qed.

Lemma create_new_sequence_revision_without_meta_data_witness :
  create_new_sequence_revision
    (Cases.world (Scenario.failing "unreachable") Cases.unreachable
       Cases.early Cases.early)
    1 2 (PList []) (PDict [("id", PInt 4)]) default_comment init
  = (init, [Core (Printed (revision_url 1 2 ++ LF))], inr (Exn AttributeError)).
Proof.
  apply create_new_sequence_revision_without_meta_data. reflexivity.
Defined.

(** ** The fraction of the second *)

Local Open Scope Z_scope.

Lemma ord2ymd_nonneg (o : Z) :
  1 <= o ->
  let '(y, m, d) := Datetime.ord2ymd o in 0 <= y /\ 0 <= m /\ 0 <= d.
Proof.
  intros Ho. unfold Datetime.ord2ymd. cbv zeta.
  set (n0 := o - 1).
  set (n400 := n0 / 146097). set (r400 := n0 mod 146097).
  set (n100 := r400 / 36524). set (r100 := r400 mod 36524).
  set (n4 := r100 / 1461). set (r4 := r100 mod 1461).
  set (n1 := r4 / 365). set (n := r4 mod 365).
  assert (H400 : 0 <= n400) by (apply Z.div_pos; unfold n0; lia).
  assert (Hr400 : 0 <= r400 < 146097) by (apply Z.mod_pos_bound; lia).
  assert (H100 : 0 <= n100) by (apply Z.div_pos; lia).
  assert (Hr100 : 0 <= r100 < 36524) by (apply Z.mod_pos_bound; lia).
  assert (H4 : 0 <= n4) by (apply Z.div_pos; lia).
  assert (Hr4 : 0 <= r4 < 1461) by (apply Z.mod_pos_bound; lia).
  assert (H1 : 0 <= n1) by (apply Z.div_pos; lia).
  assert (Hn : 0 <= n < 365) by (apply Z.mod_pos_bound; lia).
  destruct ((n1 =? 4) || (n100 =? 4)).
  - lia.
  - rewrite Z.shiftr_div_pow2 by lia. change (2 ^ 5) with 32.
    set (month := (n + 50) / 32).
    assert (Hmonth : 1 <= month <= 12).
    { unfold month. split.
      - apply Z.div_le_lower_bound; lia.
      - assert ((n + 50) / 32 < 13) by (apply Z.div_lt_upper_bound; lia). lia. }
    assert (Hq : 32 * month <= n + 50).
    { unfold month. apply Z.mul_div_le. lia. }
    set (leapyear := (n1 =? 3) && (negb (n4 =? 24) || (n100 =? 3))).
    assert (Hcases : month = 1 \/ month = 2 \/ month = 3 \/ month = 4 \/ month = 5
                     \/ month = 6 \/ month = 7 \/ month = 8 \/ month = 9
                     \/ month = 10 \/ month = 11 \/ month = 12) by lia.
    clearbody month leapyear n n1 n4 n100 n400.
    repeat (destruct Hcases as [Hm | Hcases]; [ | ]); try rename Hcases into Hm;
      subst month; destruct leapyear;
      repeat match goal with
             | |- context [ nth ?a ?l ?d ] =>
                 let v := eval vm_compute in (nth a l d) in
                 change (nth a l d) with v
             end;
      cbn;
      match goal with
      | |- context [ n <? ?p ] => destruct (n <? p) eqn:Hlt
      end;
      try (apply Z.ltb_lt in Hlt); lia.
Qed.

Lemma avoids_digit_char (c : ascii) (z : Z) :
  numeric c = false -> 0 <= z < 10 ->
  avoids c (String (Datetime.digit_char z) EmptyString) = true.
Proof.
  intros H Hz.
  destruct (numeric_chars c H) as (H0 & H1 & H2 & H3 & H4 & H5 & H6 & H7 & H8 & H9 & _).
  assert (Hc : z = 0 \/ z = 1 \/ z = 2 \/ z = 3 \/ z = 4 \/ z = 5 \/ z = 6 \/ z = 7
               \/ z = 8 \/ z = 9) by lia.
  repeat (destruct Hc as [Hc | Hc]; [ subst z | ]); try subst z;
    cbn [avoids];
    [ change (Datetime.digit_char 0) with "0"%char; rewrite H0
    | change (Datetime.digit_char 1) with "1"%char; rewrite H1
    | change (Datetime.digit_char 2) with "2"%char; rewrite H2
    | change (Datetime.digit_char 3) with "3"%char; rewrite H3
    | change (Datetime.digit_char 4) with "4"%char; rewrite H4
    | change (Datetime.digit_char 5) with "5"%char; rewrite H5
    | change (Datetime.digit_char 6) with "6"%char; rewrite H6
    | change (Datetime.digit_char 7) with "7"%char; rewrite H7
    | change (Datetime.digit_char 8) with "8"%char; rewrite H8
    | change (Datetime.digit_char 9) with "9"%char; rewrite H9 ];
    reflexivity.
Qed.

Lemma avoids_zero_padded (c : ascii) (n : nat) (z : Z) :
  numeric c = false -> 0 <= z ->
  avoids c (Datetime.zero_padded n z) = true.
Proof.
  intros H Hz.
  pose proof (avoids_str_of_int c z H) as Hs. unfold str_of_int in Hs.
  induction n as [ | n IH ].
  - cbn [Datetime.zero_padded]. destruct (z =? 0); [reflexivity | exact Hs].
  - destruct n as [ | n ].
    + cbn [Datetime.zero_padded]. destruct (z <? 10) eqn:E; [ | exact Hs ].
      apply Z.ltb_lt in E. apply avoids_digit_char; [exact H | lia].
    + change (Datetime.zero_padded (S (S n)) z)
        with (if z <? 10 ^ Z.of_nat (S n)
              then String "0"%char (Datetime.zero_padded (S n) z)
              else NilZero.string_of_int (Z.to_int z)).
      destruct (z <? 10 ^ Z.of_nat (S n)); [ | exact Hs ].
      cbn [avoids]. rewrite IH.
      destruct (numeric_chars c H) as (H0 & _). rewrite H0. reflexivity.
Qed.

(** The date and time of day that [isoformat] prints before the
    fraction depend on the whole seconds only and hold no dot. *)
Lemma isoformat_cut (t : Datetime.datetime) :
  0 <= t ->
  before "." (Datetime.isoformat t)
  = Datetime.isoformat (t / Datetime.usec_per_sec * Datetime.usec_per_sec).
Proof.
  intros Ht. unfold Datetime.isoformat. cbv zeta.
  assert (Hu : 0 < Datetime.usec_per_sec) by (unfold Datetime.usec_per_sec; lia).
  rewrite Z.div_mul, Z.mod_mul by lia.
  set (secs := t / Datetime.usec_per_sec).
  assert (Hsecs : 0 <= secs) by (apply Z.div_pos; lia).
  set (sod := secs mod 86400).
  assert (Hsod : 0 <= sod < 86400) by (apply Z.mod_pos_bound; lia).
  assert (Hday : 1 <= secs / 86400 + 1).
  { assert (0 <= secs / 86400) by (apply Z.div_pos; lia). lia. }
  pose proof (ord2ymd_nonneg _ Hday) as Hymd.
  destruct (Datetime.ord2ymd (secs / 86400 + 1)) as [[y m] d].
  destruct Hymd as (Hy & Hm & Hd).
  change (0 =? 0) with true. cbv iota.
  assert (Hh : 0 <= sod / 3600) by (apply Z.div_pos; lia).
  assert (Hmi : 0 <= (sod / 60) mod 60) by (apply Z.mod_pos_bound; lia).
  assert (Hs : 0 <= sod mod 60) by (apply Z.mod_pos_bound; lia).
  rewrite <- !string_app_assoc.
  match goal with
  | |- before _ (?D ++ ?F) = ?D ++ ""%string =>
      assert (HD : avoids "." D = true)
  end.
  { rewrite !avoids_app.
    rewrite !avoids_zero_padded by (try reflexivity; assumption).
    reflexivity. }
  rewrite (before_avoids _ _ _ HD).
  destruct (t mod Datetime.usec_per_sec =? 0); reflexivity.
Qed.

Local Open Scope string_scope.

Lemma http_date_whole_seconds (t : Datetime.datetime) :
  (0 <= t)%Z ->
  Calendar.http_date t
  = Calendar.http_date (t / Datetime.usec_per_sec * Datetime.usec_per_sec)%Z.
Proof.
  intros Ht. unfold Calendar.http_date, Calendar.weekday. cbv zeta.
  assert (Hd : forall x, (0 <= x)%Z ->
                         (x / Datetime.usec_per_day
                          = x / Datetime.usec_per_sec / 86400)%Z).
  { intros x Hx. unfold Datetime.usec_per_day.
    rewrite Z.mul_comm, Z.div_div by (unfold Datetime.usec_per_sec; lia).
    reflexivity. }
  assert (Ht' : (0 <= t / Datetime.usec_per_sec * Datetime.usec_per_sec)%Z).
  { assert (0 <= t / Datetime.usec_per_sec)%Z
      by (apply Z.div_pos; unfold Datetime.usec_per_sec; lia).
    unfold Datetime.usec_per_sec in *. lia. }
  rewrite (Hd t Ht), (Hd _ Ht').
  rewrite Z.div_mul by (unfold Datetime.usec_per_sec; lia).
  reflexivity.
Qed.

(** X23: the fraction of the second never reaches the signature nor the
    date header: two instants of the same second give the same value of
    [__fn_sign] and the same Date. *)
Theorem fn_sign_same_second :
  forall (access_key_id secret_access_key url : string) (content : pyval)
         (http_method content_type : string) (t1 t2 : Datetime.datetime),
    (0 <= t1)%Z -> (0 <= t2)%Z ->
    (t1 / Datetime.usec_per_sec = t2 / Datetime.usec_per_sec)%Z ->
    fn_sign access_key_id secret_access_key url content http_method content_type t1
    = fn_sign access_key_id secret_access_key url content http_method content_type t2
    /\ Calendar.http_date t1 = Calendar.http_date t2.
Proof.
  intros id sk url content m ct t1 t2 H1 H2 Hsame. split.
  - unfold fn_sign, raw_string.
    rewrite (isoformat_cut t1 H1), (isoformat_cut t2 H2), Hsame. reflexivity.
  - rewrite (http_date_whole_seconds t1 H1), (http_date_whole_seconds t2 H2), Hsame.
    reflexivity.
Qed.

Lemma fn_sign_same_second_witness :
  fn_sign "K1" "S3cr3t" "/show/1" PNone "GET" "application/json" 63839664000000001
  = fn_sign "K1" "S3cr3t" "/show/1" PNone "GET" "application/json" 63839664000999999
  /\ Calendar.http_date 63839664000000001 = Calendar.http_date 63839664000999999.
Proof.
  apply fn_sign_same_second; [ lia | lia | reflexivity ].
Defined.

(** ** A refresh inside [__get_headers] *)

(** X24: when [__get_headers] finds a refresh due and the response
    carries a token whose id and secret are strings, the request that
    caused the refresh is signed with the new pair: one POST is sent, the
    new key, secret and expiry are stored, and the Authorization is made
    of the new key and of the signature under the new secret. *)
Theorem get_headers_after_refresh :
  forall (net : network) (now utcnow : Datetime.datetime) (content : pyval)
         (url method : string) (st : flix) (h l p : string)
         (d : list (string * pyval)) (k sk e raw : string) (t : Datetime.datetime),
    hostname st = PStr h -> login st = PStr l -> password st = PStr p ->
    refresh_needed now st = Return true ->
    net (auth_url h) (basic_auth l p) = Body (Some (PDict d)) ->
    lookup "id" d = Some (PStr k) ->
    lookup "secret_access_key" d = Some (PStr sk) ->
    lookup "expiry_date" d = Some (PStr e) ->
    Datetime.strptime (before "." e) = Some t ->
    sk <> "" ->
    raw_string url content method "application/json" utcnow = Return raw ->
    get_headers net now utcnow content url method st
    = ({| hostname := PStr h; login := PStr l; password := PStr p;
          key := PStr k; secret := PStr sk; expiry := Some t |},
       [Called_authenticate (PStr h) (PStr l) (PStr p);
        Posted (auth_url h) (basic_auth l p)],
       Return [("Authorization",
                "FNAUTH " ++ k ++ ":"
                ++ Base64.b64encode (HMAC.hmac_sha256 (encode_utf8 sk) (encode_utf8 raw)));
               ("Content-Type", "application/json");
               ("Date", Calendar.http_date utcnow)]).
Proof.
  intros net now utcnow content url m st h l p d k sk e raw t
    Hh Hl Hp Hneed Hnet Hi Hsk He Ht Hne Hraw.
  unfold get_headers.
  rewrite (bind_returned _ _ _ _ _ _
             (get_token_refresh_run net now st h l p d (PStr k) (PStr sk) e t
                Hh Hl Hp Hneed Hnet Hi Hsk He Ht)).
  cbv beta. cbv [fst snd]. rewrite fn_sign_py_strings, bind_lift.
  unfold fn_sign. rewrite Hraw. simpl obind.
  destruct sk as [ | a sk ]; [contradiction | reflexivity].
Qed.

Lemma get_headers_after_refresh_witness :
  get_headers (Scenario.serving (Scenario.token "2024-01-02T10:00:00.25")) Cases.late
    63839689200000000 PNone "/show/1" "GET" (Scenario.session Scenario.expiry_instant)
  = ({| hostname := PStr "https://flix.example"; login := PStr "artist";
        password := PStr "pa55word";
        key := PStr "K1"; secret := PStr "S3cr3t";
        expiry := Some (Scenario.expiry_instant + Datetime.hours 24)%Z |},
     [Called_authenticate (PStr "https://flix.example") (PStr "artist")
        (PStr "pa55word");
      Posted (auth_url "https://flix.example") (basic_auth "artist" "pa55word")],
     Return [("Authorization",
              "FNAUTH " ++ "K1" ++ ":"
              ++ Base64.b64encode
                   (HMAC.hmac_sha256 (encode_utf8 "S3cr3t")
                      (encode_utf8
                         ("GET" ++ LF ++ LF ++ LF ++ "2024-01-01T07:00:00Z" ++ LF
                          ++ "/show/1"))));
             ("Content-Type", "application/json");
             ("Date", Calendar.http_date 63839689200000000)]).
Proof.
  apply (get_headers_after_refresh
           (Scenario.serving (Scenario.token "2024-01-02T10:00:00.25")) Cases.late
           63839689200000000 PNone "/show/1" "GET"
           (Scenario.session Scenario.expiry_instant)
           "https://flix.example" "artist" "pa55word"
           [("id", PStr "K1"); ("secret_access_key", PStr "S3cr3t");
            ("expiry_date", PStr "2024-01-02T10:00:00.25")]
           "K1" "S3cr3t" "2024-01-02T10:00:00.25");
    try reflexivity.
  discriminate.
Defined.

(** ** The clock the expiry is set against *)

(** C8, on the code: the expiry 2024-01-01T10:00:00.123456 of the
    response is stored as 2024-01-01T10:00:00, the fraction dropped, but
    it is not read as UTC: [__get_token] sets it against
    [datetime.now()], the local clock.  On a machine five hours behind
    UTC, at 11:00 UTC, one hour after the token expired, the local clock
    reads 06:00: [__get_headers] does not refresh and signs the request
    at 2024-01-01T11:00:00Z, the UTC clock it reads itself, with the
    expired pair. *)
Theorem stored_expiry_set_against_local_clock :
  forall net : network,
    let st :=
      state_of (authenticate
                  (Scenario.serving (Scenario.token "2024-01-01T10:00:00.123456"))
                  Scenario.host Scenario.user Scenario.pass init) in
    let r :=
      get_headers net Cases.local_six Cases.utc_eleven PNone Scenario.revision_url
        "GET" st in
    expiry st = Scenario.ten_o_clock
    /\ Datetime.isoformat Cases.utc_eleven = "2024-01-01T11:00:00"
    /\ Datetime.isoformat Cases.local_six = "2024-01-01T06:00:00"
    /\ Calendar.http_date Cases.utc_eleven = "Mon, 01 Jan 2024 11:00:00 GMT"
    /\ refreshed r = false
    /\ r = (st, [],
            Return [("Authorization",
                     "FNAUTH " ++ "K1" ++ ":"
                     ++ Base64.b64encode
                          (HMAC.hmac_sha256 (encode_utf8 "S3cr3t")
                             (encode_utf8
                                ("GET" ++ LF ++ LF ++ LF ++ "2024-01-01T11:00:00Z" ++ LF
                                 ++ "/show/1/sequence/2/revision/1"))));
                    ("Content-Type", "application/json");
                    ("Date", Calendar.http_date Cases.utc_eleven)]).
Proof.
  intros net st r.
  assert (Hst : st = Scenario.session Scenario.expiry_instant)
    by (vm_compute; reflexivity).
  assert (Hr : r = (st, [],
            Return [("Authorization",
                     "FNAUTH " ++ "K1" ++ ":"
                     ++ Base64.b64encode
                          (HMAC.hmac_sha256 (encode_utf8 "S3cr3t")
                             (encode_utf8
                                ("GET" ++ LF ++ LF ++ LF ++ "2024-01-01T11:00:00Z" ++ LF
                                 ++ "/show/1/sequence/2/revision/1"))));
                    ("Content-Type", "application/json");
                    ("Date", Calendar.http_date Cases.utc_eleven)])).
  { subst r. rewrite Hst.
    apply get_headers_signed.
    - repeat split. exists Scenario.expiry_instant.
      repeat split. vm_compute. discriminate.
    - discriminate.
    - vm_compute. reflexivity. }
  split; [ rewrite Hst; vm_compute; reflexivity | ].
  split; [ vm_compute; reflexivity | ].
  split; [ vm_compute; reflexivity | ].
  split; [ vm_compute; reflexivity | ].
  split; [ rewrite Hr; reflexivity | exact Hr ].
Qed.
